(** * mini-rag: the query-answering and cost/telemetry pipeline

    A shallow embedding of [backend/mock_rag_pipeline.py],
    [backend/rag_pipeline.py] and the query/upload-text endpoints of
    [backend/main.py].

    Conventions of the embedding.
    - A Python [str] is a [string] whose characters are the code points
      below 256; [isspace] and [lower] are Python's on that range.
    - A Python [int] is a [Z]; [len] and [enumerate] indices are [nat]
      and are injected where they meet an [int] field.
    - A Python [float] holding a cost or a time is an exact rational [Q];
      [round(x, 6)] is rounding to the nearest multiple of 10^-6, ties to
      the even neighbour.
    - Module-level globals are fields of an explicit state record that the
      functions read and return.
    - The hosted services (tokenizer, splitter, vector store, reranker,
      LLM) are fields of a record of collaborators; a call that can raise
      returns a [Result]. Building a client object (prompt, reranker,
      chat model) is taken not to raise. *)

From Stdlib Require Import Ascii ZArith QArith Qabs Qround Lia Lqa DecimalString.
From stdpp Require Import base option list sorting gmap sets strings.

(** ** Python string primitives *)

Module PyStr.

(** [str.isspace] on one code point below 256: TAB..CR, FS..US, space,
    NEL and NBSP. *)
Definition isspace (c : ascii) : bool :=
  let n := nat_of_ascii c in
  ((9 <=? n) && (n <=? 13)) || ((28 <=? n) && (n <=? 32))
  || (n =? 133) || (n =? 160).

(** [str.lower] on one code point below 256: A..Z and the Latin-1
    capitals (all of 192..222 but the multiplication sign 215). *)
Definition lower_char (c : ascii) : ascii :=
  let n := nat_of_ascii c in
  if ((65 <=? n) && (n <=? 90))
     || ((192 <=? n) && (n <=? 222) && negb (n =? 215))
  then ascii_of_nat (n + 32) else c.

Fixpoint lower (s : string) : string :=
  match s with
  | EmptyString => EmptyString
  | String c s' => String (lower_char c) (lower s')
  end.

Fixpoint lstrip (s : string) : string :=
  match s with
  | EmptyString => EmptyString
  | String c s' => if isspace c then lstrip s' else s
  end.

Fixpoint rstrip (s : string) : string :=
  match s with
  | EmptyString => EmptyString
  | String c s' =>
      match rstrip s' with
      | EmptyString => if isspace c then EmptyString else String c EmptyString
      | r => String c r
      end
  end.

(** [s.strip()] *)
Definition strip (s : string) : string := rstrip (lstrip s).

(** Truth value of a string in a condition. *)
Definition truthy (s : string) : bool :=
  match s with EmptyString => false | String _ _ => true end.

Definition cons_word (w : string) (ws : list string) : list string :=
  if truthy w then w :: ws else ws.

(** [split_go s] is the word in progress at the head of [s] and the
    words completed after it. *)
Fixpoint split_go (s : string) : string * list string :=
  match s with
  | EmptyString => (EmptyString, [])
  | String c s' =>
      let '(w, ws) := split_go s' in
      if isspace c then (EmptyString, cons_word w ws) else (String c w, ws)
  end.

(** [s.split()]: the maximal runs of non-space characters. *)
Definition split (s : string) : list string :=
  let '(w, ws) := split_go s in cons_word w ws.

Fixpoint is_prefix (p s : string) : bool :=
  match p, s with
  | EmptyString, _ => true
  | String a p', String b s' => if Ascii.eqb a b then is_prefix p' s' else false
  | String _ _, EmptyString => false
  end.

(** [split_on_go sep s skip]: [skip] characters of a separator that was
    just matched are still to be passed over. The head of the result is
    the piece in progress. *)
Fixpoint split_on_go (sep s : string) (skip : nat) : list string :=
  match s with
  | EmptyString => [EmptyString]
  | String c s' =>
      match skip with
      | S k => split_on_go sep s' k
      | O =>
          if is_prefix sep s
          then EmptyString :: split_on_go sep s' (String.length sep - 1)
          else match split_on_go sep s' 0 with
               | h :: t => String c h :: t
               | [] => [String c EmptyString]
               end
      end
  end.

(** [s.split(sep)] for a non-empty [sep]: the pieces between the
    non-overlapping occurrences of [sep], scanned from the left. *)
Definition split_on (sep s : string) : list string := split_on_go sep s 0.

(** [s[:n]] *)
Definition slice_to (n : nat) (s : string) : string := String.substring 0 n s.

(** [str(n)] for a non-negative [n]. *)
Definition str_of_nat (n : nat) : string := NilZero.string_of_uint (Nat.to_uint n).

(** [sep.join(parts)] *)
Definition join (sep : string) (parts : list string) : string :=
  String.concat sep parts.

Definition newline : string := String (ascii_of_nat 10) EmptyString.

(** [sub in s] *)
Fixpoint contains (sub s : string) : bool :=
  is_prefix sub s
  || match s with
     | EmptyString => false
     | String _ s' => contains sub s'
     end.

(** [s.endswith(suffix)] *)
Fixpoint endswith (s suffix : string) : bool :=
  String.eqb s suffix
  || match s with
     | EmptyString => false
     | String _ s' => endswith s' suffix
     end.

(** [s * n] *)
Fixpoint repeat_str (s : string) (n : nat) : string :=
  match n with
  | O => EmptyString
  | S n' => s +:+ repeat_str s n'
  end.

Definition len (s : string) : nat := String.length s.

End PyStr.

(** [enumerate(l)] *)
Fixpoint enumerate_from {A} (i : nat) (l : list A) : list (nat * A) :=
  match l with
  | [] => []
  | x :: l' => (i, x) :: enumerate_from (S i) l'
  end.

Definition enumerate {A} (l : list A) : list (nat * A) := enumerate_from 0 l.

(** ** Data model *)

Record Metadata := mkMetadata {
  source : string;
  title : string;
  position : Z
}.

Record Document := mkDocument {
  page_content : string;
  metadata : Metadata
}.

Record CostBreakdown := mkCostBreakdown {
  embedding_tokens : Z;
  llm_input_tokens : Z;
  llm_output_tokens : Z;
  embedding_cost : Q;
  llm_input_cost : Q;
  llm_output_cost : Q;
  total_cost : Q
}.

Record TokenUsage := mkTokenUsage {
  context_tokens : Z;
  query_tokens : Z;
  prompt_tokens : Z;
  output_tokens : Z;
  total_llm_tokens : Z
}.

Record AnswerResult := mkAnswerResult {
  answer : string;
  sources : list Document;
  timing : Q;
  cost_breakdown : CostBreakdown;
  token_usage : TokenUsage
}.

(** ** The mock pipeline, [mock_rag_pipeline.py] *)

(** The module globals [mock_documents] and [mock_processed]. *)
Record MockState := mkMockState {
  mock_documents : list Document;
  mock_processed : bool
}.

Definition mock_initial : MockState :=
  {| mock_documents := []; mock_processed := false |}.

(** The paragraph separator, two line feeds. *)
Definition blank_line : string := PyStr.newline +:+ PyStr.newline.

(** Body of the loop of [mock_get_text_chunks]. *)
Definition chunk_step (source_name : string)
    (chunks : list Document) (ip : nat * string) : list Document :=
  let '(i, paragraph) := ip in
  if PyStr.truthy (PyStr.strip paragraph)
  then chunks ++ [ {| page_content := PyStr.strip paragraph;
                      metadata := {| source := source_name;
                                     title := source_name;
                                     position := Z.of_nat i + 1 |} |} ]
  else chunks.

Definition mock_get_text_chunks (text_content source_name : string)
    (st : MockState) : list Document * MockState :=
  let paragraphs := PyStr.split_on blank_line text_content in
  let chunks := foldl (chunk_step source_name) [] (enumerate paragraphs) in
  (chunks, {| mock_documents := chunks; mock_processed := true |}).

Inductive MockVectorstore := mkMockVectorstore (status : string) (documents : nat).
Inductive MockRetriever := mkMockRetriever (status : string).

Definition mock_get_vectorstore (documents : list Document) : MockVectorstore :=
  mkMockVectorstore "created" (length documents).

Definition mock_configure_retriever_and_reranker (vectorstore : MockVectorstore)
    : MockRetriever :=
  mkMockRetriever "configured".

(** [set(s.lower().split())] *)
Definition word_set (s : string) : gset string :=
  list_to_set (PyStr.split (PyStr.lower s)).

(** Body of the keyword-matching loop of [mock_get_answer]. *)
Definition match_step (query_words : gset string)
    (relevant_docs : list Document) (doc : Document) : list Document :=
  let doc_words := word_set (page_content doc) in
  if bool_decide (query_words ∩ doc_words ≠ ∅)
  then relevant_docs ++ [doc]
  else relevant_docs.

(** Body of the citation loop of [mock_get_answer]. *)
Definition cite_step (answer_parts : list string) (id : nat * Document)
    : list string :=
  let '(i, doc) := id in
  let sentences := PyStr.split_on "." (page_content doc) in
  let relevant_sentence :=
    match sentences with
    | s0 :: _ => s0
    | [] => PyStr.slice_to 100 (page_content doc)
    end in
  answer_parts
    ++ [PyStr.strip relevant_sentence +:+ " [" +:+ PyStr.str_of_nat (i + 1) +:+ "]"].

Definition no_documents_answer : string :=
  "Based on the provided documents, I cannot answer this question as no documents have been processed yet.".

Definition no_match_answer : string :=
  "Based on the provided documents, I cannot find specific information to answer this question.".

(** The mock rate, [0.0001], and the number of words of a text,
    [len(s.split())]. *)
Definition mock_rate : Q := 1 # 10000.
Definition word_count (s : string) : Z := Z.of_nat (length (PyStr.split s)).

(** [mock_get_answer(query, retriever)]. The handle may be any Python
    object, so its type is a parameter; [start_time] and [end_time] are
    the two readings of the clock. The function reads the global
    [mock_documents] and writes nothing. *)
Definition mock_get_answer {R : Type} (query : string) (retriever : R)
    (start_time end_time : Q) (st : MockState) : AnswerResult :=
  match mock_documents st with
  | [] =>
      {| answer := no_documents_answer;
         sources := [];
         timing := 1 # 10;
         cost_breakdown :=
           {| embedding_tokens := 0; llm_input_tokens := 0; llm_output_tokens := 0;
              embedding_cost := 0; llm_input_cost := 0; llm_output_cost := 0;
              total_cost := 0 |};
         token_usage :=
           {| context_tokens := 0;
              query_tokens := word_count query;
              prompt_tokens := 0;
              output_tokens := 0;
              total_llm_tokens := 0 |} |}
  | _ :: _ =>
      let query_words := word_set query in
      let relevant_docs := foldl (match_step query_words) [] (mock_documents st) in
      let relevant_docs := take 3 relevant_docs in
      let answer :=
        match relevant_docs with
        | [] => no_match_answer
        | _ :: _ =>
            let answer_parts := foldl cite_step [] (enumerate relevant_docs) in
            PyStr.join ". " answer_parts +:+ "."
        end in
      let context_tokens :=
        foldr Z.add 0%Z ((fun doc => word_count (page_content doc)) <$> relevant_docs) in
      let query_tokens := word_count query in
      let output_tokens := word_count answer in
      {| answer := answer;
         sources := relevant_docs;
         timing := end_time - start_time;
         cost_breakdown :=
           {| embedding_tokens := context_tokens;
              llm_input_tokens := context_tokens + query_tokens;
              llm_output_tokens := output_tokens;
              embedding_cost := inject_Z context_tokens * mock_rate / 1000;
              llm_input_cost := inject_Z (context_tokens + query_tokens) * mock_rate / 1000;
              llm_output_cost := inject_Z output_tokens * mock_rate / 1000;
              total_cost :=
                inject_Z (context_tokens * 2 + query_tokens + output_tokens)
                * mock_rate / 1000 |};
         token_usage :=
           {| context_tokens := context_tokens;
              query_tokens := query_tokens;
              prompt_tokens := context_tokens + query_tokens;
              output_tokens := output_tokens;
              total_llm_tokens := context_tokens + query_tokens + output_tokens |} |}
  end.

(** ** The real pipeline, [rag_pipeline.py] *)

(** Outcome of a call that may raise; [Raise msg] carries [str(e)]. *)
Inductive Result (A : Type) : Type :=
  | Ok (a : A)
  | Raise (msg : string).
Arguments Ok {A} a.
Arguments Raise {A} msg.

#[export] Instance Result_ret : MRet Result := fun A a => Ok a.
#[export] Instance Result_bind : MBind Result := fun A B f m =>
  match m with
  | Ok a => f a
  | Raise msg => Raise msg
  end.

(** The hosted collaborators of the pipeline, over the type [VS] of a
    populated vector index.
    - [tiktoken_len text] is [len(encoding.encode(text))], or [None] when
      tiktoken raises;
    - [split_text] is the recursive splitter with chunk size 1000 and
      overlap 150;
    - [from_documents] embeds and upserts the chunks;
    - [relevant_documents vs k top_n query] is the MMR search for [k]
      candidates followed by the reranker keeping [top_n];
    - [llm_invoke prompt] is the content of the model's reply;
    - [pdf_pages bytes] is the extracted text of each page of a PDF;
    - [decode_utf8] is [bytes.decode] for UTF-8;
    - [str_http_exception status detail] is [str(e)] of an
      [HTTPException], which depends on the web framework's version. *)
Record Services (VS : Type) := mkServices {
  tiktoken_len : string -> option nat;
  split_text : string -> list string;
  from_documents : list Document -> Result VS;
  relevant_documents : VS -> nat -> nat -> string -> Result (list Document);
  llm_invoke : string -> Result string;
  pdf_pages : list Byte.byte -> Result (list string);
  decode_utf8 : list Byte.byte -> Result string;
  str_http_exception : nat -> string -> string
}.
Arguments tiktoken_len {VS} _ _.
Arguments split_text {VS} _ _.
Arguments from_documents {VS} _ _.
Arguments relevant_documents {VS} _ _ _ _ _.
Arguments llm_invoke {VS} _ _.
Arguments pdf_pages {VS} _ _.
Arguments decode_utf8 {VS} _ _.
Arguments str_http_exception {VS} _ _ _.

(** What the global [vectorstore] and [retriever] of [main.py] can hold:
    the dictionaries of the mock pipeline or the objects of the real one. *)
Inductive Vectorstore (VS : Type) : Type :=
  | MockVS (v : MockVectorstore)
  | PineconeVS (vs : VS).
Arguments MockVS {VS} v.
Arguments PineconeVS {VS} vs.

Inductive Retriever (VS : Type) : Type :=
  | MockHandle (r : MockRetriever)
  | CompressionRetriever (base : VS) (k top_n : nat).
Arguments MockHandle {VS} r.
Arguments CompressionRetriever {VS} base k top_n.

Definition count_tokens {VS} (svc : Services VS) (text : string) : Z :=
  match tiktoken_len svc text with
  | Some n => Z.of_nat n
  | None => Z.of_nat (PyStr.len text) / 4
  end.

(** The integer nearest to [x], the even one of the two at a tie. *)
Definition round_half_even (x : Q) : Z :=
  let f := Qfloor x in
  match (x - inject_Z f ?= 1 # 2)%Q with
  | Lt => f
  | Gt => (f + 1)%Z
  | Eq => if Z.even f then f else (f + 1)%Z
  end.

(** [round(x, 6)] *)
Definition round6 (x : Q) : Q :=
  (inject_Z (round_half_even (x * 1000000)) / 1000000)%Q.

Definition gemini_embedding_cost_per_1k : Q := 125 # 10000000.
Definition groq_input_cost_per_1k : Q := 1 # 10000.
Definition groq_output_cost_per_1k : Q := 1 # 10000.

(** The three costs of [estimate_costs] before rounding. *)
Definition raw_embedding_cost (embedding_tokens : Z) : Q :=
  (inject_Z embedding_tokens / 1000 * gemini_embedding_cost_per_1k)%Q.
Definition raw_llm_input_cost (llm_input_tokens : Z) : Q :=
  (inject_Z llm_input_tokens / 1000 * groq_input_cost_per_1k)%Q.
Definition raw_llm_output_cost (llm_output_tokens : Z) : Q :=
  (inject_Z llm_output_tokens / 1000 * groq_output_cost_per_1k)%Q.

Definition estimate_costs (embedding_tokens llm_input_tokens llm_output_tokens : Z)
    : CostBreakdown :=
  let embedding_cost := raw_embedding_cost embedding_tokens in
  let llm_input_cost := raw_llm_input_cost llm_input_tokens in
  let llm_output_cost := raw_llm_output_cost llm_output_tokens in
  let total_cost := (embedding_cost + llm_input_cost + llm_output_cost)%Q in
  {| embedding_tokens := embedding_tokens;
     llm_input_tokens := llm_input_tokens;
     llm_output_tokens := llm_output_tokens;
     embedding_cost := round6 embedding_cost;
     llm_input_cost := round6 llm_input_cost;
     llm_output_cost := round6 llm_output_cost;
     total_cost := round6 total_cost |}.

Definition get_text_chunks {VS} (svc : Services VS)
    (text_content source_name : string) : list Document :=
  let chunks := split_text svc text_content in
  foldl (fun documents '(i, chunk) =>
           documents ++ [ {| page_content := chunk;
                             metadata := {| source := source_name;
                                            title := source_name;
                                            position := Z.of_nat i + 1 |} |} ])
        [] (enumerate chunks).

Definition get_vectorstore {VS} (svc : Services VS) (documents : list Document)
    : Result VS :=
  from_documents svc documents.

Definition configure_retriever_and_reranker {VS} (vectorstore : VS) : Retriever VS :=
  CompressionRetriever vectorstore 10 3.

(** [retriever.get_relevant_documents(query)]; a mock dictionary has no
    such attribute. *)
Definition get_relevant_documents {VS} (svc : Services VS)
    (retriever : Retriever VS) (query : string) : Result (list Document) :=
  match retriever with
  | CompressionRetriever base k top_n => relevant_documents svc base k top_n query
  | MockHandle _ => Raise "'dict' object has no attribute 'get_relevant_documents'"
  end.

Definition dq : string := String (ascii_of_nat 34) EmptyString.

(** [prompt_template], cut at its two placeholders. *)
Definition prompt_before_context : string :=
  PyStr.join PyStr.newline
    [ "";
      "    Use the following documents to answer the user's question.";
      "    Each document is formatted as [DOCUMENT n] where n is the document number, followed by its content.";
      "    Your answer MUST be grounded in the information from these documents.";
      "    For each sentence in your answer, you MUST include an inline citation to the document number that supports it. For example: "
        +:+ dq +:+ "This is a statement from a document [1]." +:+ dq;
      "    If multiple documents support a sentence, cite them all, like: "
        +:+ dq +:+ "This is a complex statement [2][3]." +:+ dq;
      "    If the documents do not contain enough information to answer the question, you MUST explicitly state: "
        +:+ dq +:+ "Based on the provided documents, I cannot answer this question as the information is not available in the sources." +:+ dq;
      "    Do not make up information that is not directly supported by the documents.";
      "";
      "    Documents:";
      "    " ].

Definition prompt_before_question : string :=
  PyStr.join PyStr.newline [ ""; ""; "    Question: " ].

Definition prompt_after_question : string :=
  PyStr.join PyStr.newline [ ""; "    Answer:"; "    " ].

(** [prompt_template.format(context=..., question=...)] *)
Definition prompt_format (context question : string) : string :=
  prompt_before_context +:+ context +:+ prompt_before_question
    +:+ question +:+ prompt_after_question.

Definition format_docs (docs : list Document) : string :=
  PyStr.join blank_line
    ((fun '(i, doc) =>
        "[DOCUMENT " +:+ PyStr.str_of_nat (i + 1) +:+ "] " +:+ page_content doc)
       <$> enumerate docs).

(** [rag_chain.invoke(query)]: retrieve again, format, prompt, model. *)
Definition rag_chain_invoke {VS} (svc : Services VS)
    (retriever : Retriever VS) (query : string) : Result string :=
  docs ← get_relevant_documents svc retriever query;
  llm_invoke svc (prompt_format (format_docs docs) query).

Definition get_answer {VS} (svc : Services VS) (query : string)
    (retriever : Retriever VS) (start_time end_time : Q) : Result AnswerResult :=
  source_documents ← get_relevant_documents svc retriever query;
  let formatted_context := format_docs source_documents in
  let context_tokens := count_tokens svc formatted_context in
  let query_tokens := count_tokens svc query in
  let prompt_tokens := count_tokens svc (prompt_format formatted_context query) in
  response ← rag_chain_invoke svc retriever query;
  let output_tokens := count_tokens svc response in
  let embedding_tokens :=
    foldr Z.add 0%Z ((fun doc => count_tokens svc (page_content doc)) <$> source_documents) in
  let cost_breakdown := estimate_costs embedding_tokens prompt_tokens output_tokens in
  mret {| answer := response;
          sources := source_documents;
          timing := end_time - start_time;
          cost_breakdown := cost_breakdown;
          token_usage :=
            {| context_tokens := context_tokens;
               query_tokens := query_tokens;
               prompt_tokens := prompt_tokens;
               output_tokens := output_tokens;
               total_llm_tokens := prompt_tokens + output_tokens |} |}.

(** ** The endpoints, [main.py] *)

Record QueryRequest := mkQueryRequest { query : string }.
Record TextUploadRequest := mkTextUploadRequest { text : string; source_name : string }.

(** The globals [retriever] and [vectorstore] together with the globals of
    the mock module. *)
Record ServerState (VS : Type) := mkServerState {
  retriever : option (Retriever VS);
  vectorstore : option (Vectorstore VS);
  mock : MockState
}.
Arguments mkServerState {VS} _ _ _.
Arguments retriever {VS} _.
Arguments vectorstore {VS} _.
Arguments mock {VS} _.

Definition server_initial {VS} : ServerState VS :=
  {| retriever := None; vectorstore := None; mock := mock_initial |}.

(** What an endpoint hands back: its JSON body or an [HTTPException]. *)
Inductive Response (A : Type) : Type :=
  | Return (body : A)
  | HTTPException (status_code : nat) (detail : string).
Arguments Return {A} body.
Arguments HTTPException {A} status_code detail.

Definition upload_text {VS} (DEMO_MODE : bool) (svc : Services VS)
    (request : TextUploadRequest) (st : ServerState VS)
    : Response string * ServerState VS :=
  if negb (PyStr.truthy (PyStr.strip (text request)))
  then (HTTPException 400 "Text content cannot be empty.", st)
  else
    let mode_msg := if DEMO_MODE then " (Demo Mode)" else "" in
    let message :=
      "Successfully processed and indexed text from "
        +:+ source_name request +:+ "." +:+ mode_msg in
    if DEMO_MODE then
      let '(documents, m) :=
        mock_get_text_chunks (text request) (source_name request) (mock st) in
      let vs := mock_get_vectorstore documents in
      let rt := mock_configure_retriever_and_reranker vs in
      (Return message,
       {| retriever := Some (MockHandle rt); vectorstore := Some (MockVS vs); mock := m |})
    else
      let documents := get_text_chunks svc (text request) (source_name request) in
      match get_vectorstore svc documents with
      | Raise msg => (HTTPException 500 msg, st)
      | Ok vs =>
          (Return message,
           {| retriever := Some (configure_retriever_and_reranker vs);
              vectorstore := Some (PineconeVS vs);
              mock := mock st |})
      end.

(** [handle_query] writes no global, so it returns a response only. In
    production mode the sources are re-packed as dictionaries with the
    same two entries, which the record already is. *)
Definition handle_query {VS} (DEMO_MODE : bool) (svc : Services VS)
    (request : QueryRequest) (start_time end_time : Q) (st : ServerState VS)
    : Response AnswerResult :=
  match retriever st with
  | None => HTTPException 400 "No document has been uploaded and processed yet."
  | Some rt =>
      if DEMO_MODE
      then Return (mock_get_answer (query request) rt start_time end_time (mock st))
      else match get_answer svc (query request) rt start_time end_time with
           | Ok result => Return result
           | Raise msg => HTTPException 500 msg
           end
  end.

Record UploadFile := mkUploadFile { filename : string; file_bytes : list Byte.byte }.

(** [extract_text_from_pdf]; its failure is an [HTTPException] with
    status 400, of which the caller only ever sees [str(e)]. *)
Definition extract_text_from_pdf {VS} (svc : Services VS)
    (file_content : list Byte.byte) : Result string :=
  match pdf_pages svc file_content with
  | Ok pages =>
      Ok (PyStr.strip
            (foldl (fun text page => text +:+ (page +:+ PyStr.newline)) "" pages))
  | Raise msg => Raise (str_http_exception svc 400 ("Error reading PDF: " +:+ msg))
  end.

Definition upload_document {VS} (DEMO_MODE : bool) (svc : Services VS)
    (file : UploadFile) (st : ServerState VS)
    : Response string * ServerState VS :=
  if negb (PyStr.endswith (filename file) ".txt" || PyStr.endswith (filename file) ".pdf")
  then (HTTPException 400 "Only .txt and .pdf files are supported.", st)
  else
    let decoded :=
      if PyStr.endswith (filename file) ".pdf"
      then extract_text_from_pdf svc (file_bytes file)
      else decode_utf8 svc (file_bytes file) in
    match decoded with
    | Raise msg => (HTTPException 500 msg, st)
    | Ok content =>
        if negb (PyStr.truthy (PyStr.strip content))
        then (HTTPException 500
                (str_http_exception svc 400 "No text content found in the file."), st)
        else
          let mode_msg := if DEMO_MODE then " (Demo Mode)" else "" in
          let file_type := if PyStr.endswith (filename file) ".pdf" then "PDF" else "text" in
          let message :=
            "Successfully processed and indexed " +:+ file_type +:+ " file: "
              +:+ filename file +:+ "." +:+ mode_msg in
          if DEMO_MODE then
            let '(documents, m) := mock_get_text_chunks content (filename file) (mock st) in
            let vs := mock_get_vectorstore documents in
            let rt := mock_configure_retriever_and_reranker vs in
            (Return message,
             {| retriever := Some (MockHandle rt); vectorstore := Some (MockVS vs);
                mock := m |})
          else
            let documents := get_text_chunks svc content (filename file) in
            match get_vectorstore svc documents with
            | Raise msg => (HTTPException 500 msg, st)
            | Ok vs =>
                (Return message,
                 {| retriever := Some (configure_retriever_and_reranker vs);
                    vectorstore := Some (PineconeVS vs);
                    mock := mock st |})
            end
    end.

(** One request that can replace the retriever, and a run of them. *)
Inductive Upload :=
  | UploadText (request : TextUploadRequest)
  | UploadDocument (file : UploadFile).

Definition upload {VS} (DEMO_MODE : bool) (svc : Services VS) (u : Upload)
    (st : ServerState VS) : Response string * ServerState VS :=
  match u with
  | UploadText request => upload_text DEMO_MODE svc request st
  | UploadDocument file => upload_document DEMO_MODE svc file st
  end.

Fixpoint run_uploads {VS} (DEMO_MODE : bool) (svc : Services VS) (us : list Upload)
    (st : ServerState VS) : list (Response string) * ServerState VS :=
  match us with
  | [] => ([], st)
  | u :: us' =>
      let '(resp, st') := upload DEMO_MODE svc u st in
      let '(resps, st'') := run_uploads DEMO_MODE svc us' st' in
      (resp :: resps, st'')
  end.

Definition is_success {A} (r : Response A) : bool :=
  match r with Return _ => true | HTTPException _ _ => false end.

(** ** Vocabulary of the properties *)

(** The lower-cased words of a chunk and of a query have one in common. *)
Definition shares_word (query : string) (doc : Document) : Prop :=
  ∃ w, w ∈ PyStr.split (PyStr.lower query)
       ∧ w ∈ PyStr.split (PyStr.lower (page_content doc)).

#[export] Instance shares_word_dec query doc : Decision (shares_word query doc).
Proof.
  unfold shares_word.
  destruct (decide (Exists (fun w => w ∈ PyStr.split (PyStr.lower (page_content doc)))
                           (PyStr.split (PyStr.lower query)))) as [H|H].
  - left. apply Exists_exists in H. destruct H as (w & Hin & Hw).
    by exists w.
  - right. intros (w & Hq & Hd). apply H, Exists_exists. by exists w.
Defined.

(** The results a pipeline can hand back, by mode. *)
Inductive Produced : bool -> AnswerResult -> Prop :=
  | produced_mock (R : Type) (query : string) (retriever : R)
      (start_time end_time : Q) (st : MockState) :
      Produced true (mock_get_answer query retriever start_time end_time st)
  | produced_real (VS : Type) (svc : Services VS) (query : string)
      (retriever : Retriever VS) (start_time end_time : Q) (r : AnswerResult) :
      get_answer svc query retriever start_time end_time = Ok r -> Produced false r.

(** Collaborators that answer from a list of chunks kept as the index: no
    tokenizer, and a model with one fixed reply. *)
Definition fixed_services (reply : string) : Services (list Document) :=
  {| tiktoken_len := fun _ => None;
     split_text := fun text => [text];
     from_documents := fun documents => Ok documents;
     relevant_documents := fun vs k top_n _ => Ok (take top_n (take k vs));
     llm_invoke := fun _ => Ok reply;
     pdf_pages := fun _ => Raise "EOF marker not found";
     decode_utf8 := fun _ => Raise "invalid start byte";
     str_http_exception := fun status detail =>
       PyStr.str_of_nat status +:+ ": " +:+ detail |}.

(** The first three stored chunks that share a word with the query. *)
Definition relevant (query : string) (st : MockState) : list Document :=
  take 3 (filter (shares_word query) (mock_documents st)).

(** The chunks of the numbered paragraphs that are not blank. *)
Definition paragraph_chunk (source_name : string) (ip : nat * string) : Document :=
  {| page_content := PyStr.strip ip.2;
     metadata := {| source := source_name; title := source_name;
                    position := Z.of_nat ip.1 + 1 |} |}.

Definition paragraph_chunks (source_name : string) (ips : list (nat * string))
    : list Document :=
  paragraph_chunk source_name <$> filter (fun ip => PyStr.strip ip.2 ≠ "") ips.

Definition positions (chunks : list Document) : list Z :=
  (fun d => position (metadata d)) <$> chunks.

(** [s[n:]] *)
Fixpoint string_drop (n : nat) (s : string) : string :=
  match n, s with
  | O, _ => s
  | S n', String _ s' => string_drop n' s'
  | S _, EmptyString => EmptyString
  end.

(** The text of a chunk before its first full stop, all of it when there
    is none, and the piece of the answer made from the [i]-th source. *)
Fixpoint before_stop (s : string) : string :=
  match s with
  | EmptyString => EmptyString
  | String c s' => if Ascii.eqb "." c then EmptyString else String c (before_stop s')
  end.

Definition fragment (id : nat * Document) : string :=
  PyStr.strip (before_stop (page_content id.2))
    +:+ " [" +:+ PyStr.str_of_nat (id.1 + 1) +:+ "]".

(** ** Sample inputs *)

Definition example_text : string :=
  "Cats are mammals." +:+ blank_line +:+ "Dogs are loyal.".
Definition example_query : string := "Are dogs loyal?".

Definition uploaded (text_content : string) : MockState :=
  (mock_get_text_chunks text_content "Direct Input" mock_initial).2.

Definition mock_handle : MockRetriever :=
  mock_configure_retriever_and_reranker (mock_get_vectorstore []).

(** Two paragraphs with an empty one between them, and a chunk of 101
    letters without a full stop. *)
Definition gap_text : string := "A" +:+ blank_line +:+ blank_line +:+ "B".
Definition long_word : string := PyStr.repeat_str "a" 101.

(** A production-mode query against an empty index. *)
Definition sample_real : Result AnswerResult :=
  get_answer (fixed_services "I cannot answer.") "Who wrote the document?"
    (CompressionRetriever [] 10 3) 0 1.

(** Every character of the text is white space. *)
Fixpoint all_space (s : string) : bool :=
  match s with
  | EmptyString => true
  | String c s' => PyStr.isspace c && all_space s'
  end.

(** Collaborators with a working index and a model that is down. *)
Definition outage_services : Services (list Document) :=
  {| tiktoken_len := fun _ => None;
     split_text := fun text => [text];
     from_documents := fun documents => Ok documents;
     relevant_documents := fun vs k top_n _ => Ok (take top_n (take k vs));
     llm_invoke := fun _ => Raise "rate limit exceeded";
     pdf_pages := fun _ => Raise "EOF marker not found";
     decode_utf8 := fun _ => Raise "invalid start byte";
     str_http_exception := fun status detail =>
       PyStr.str_of_nat status +:+ ": " +:+ detail |}.

(** In demo mode the retriever is set only together with a store that
    holds a chunk. *)
Definition demo_invariant {VS : Type} (st : ServerState VS) : Prop :=
  retriever st = None ∨ mock_documents (mock st) ≠ [].

(** The text starts with a line feed. *)
Definition starts_with_newline (s : string) : bool :=
  match s with
  | EmptyString => false
  | String c _ => Ascii.eqb (ascii_of_nat 10) c
  end.

(** * Properties *)

(** ** Loops as list functions *)

Section Loops.

Lemma word_set_spec (s w : string) :
  w ∈ word_set s ↔ w ∈ PyStr.split (PyStr.lower s).
Proof. unfold word_set. by rewrite elem_of_list_to_set. Qed.

Lemma word_sets_meet (query : string) (doc : Document) :
  word_set query ∩ word_set (page_content doc) ≠ ∅ ↔ shares_word query doc.
Proof.
  unfold shares_word. split.
  - intros Hne. apply set_choose_L in Hne as [w Hw].
    apply elem_of_intersection in Hw as [Hq Hd].
    exists w. by rewrite <- !word_set_spec.
  - intros (w & Hq & Hd) Hempty.
    apply (not_elem_of_empty (C:=gset string) w). rewrite <- Hempty.
    apply elem_of_intersection. by rewrite !word_set_spec.
Qed.

(** The keyword loop appends, in order, the documents that share a
    word with the query. *)
Lemma match_loop (query : string) (docs acc : list Document) :
  foldl (match_step (word_set query)) acc docs
  = acc ++ filter (shares_word query) docs.
Proof.
  revert acc. induction docs as [|doc docs IH]; intros acc; simpl.
  - by rewrite filter_nil, app_nil_r.
  - rewrite IH. unfold match_step. case_bool_decide as Hmeet.
    + rewrite filter_cons_True by (by apply word_sets_meet).
      by rewrite <- app_assoc.
    + rewrite filter_cons_False; [done|].
      intros Hs. by apply word_sets_meet in Hs.
Qed.

Lemma mock_sources {R} (query : string) (retriever : R) (t0 t1 : Q) (st : MockState) :
  sources (mock_get_answer query retriever t0 t1 st) = relevant query st.
Proof.
  unfold mock_get_answer, relevant. destruct (mock_documents st) as [|d ds] eqn:E.
  - done.
  - cbn [sources]. by rewrite match_loop.
Qed.

Lemma mock_answer {R} (query : string) (retriever : R) (t0 t1 : Q) (st : MockState) :
  mock_documents st ≠ [] →
  answer (mock_get_answer query retriever t0 t1 st)
  = match relevant query st with
    | [] => no_match_answer
    | _ :: _ =>
        PyStr.join ". " (foldl cite_step [] (enumerate (relevant query st))) +:+ "."
    end.
Proof.
  intros Hne. unfold mock_get_answer, relevant.
  destruct (mock_documents st) as [|d ds] eqn:E; [done|].
  cbn [answer]. by rewrite match_loop.
Qed.

End Loops.

(** ** Splitting and joining *)

Section Split.

Lemma truthy_ne (s : string) : PyStr.truthy s = true ↔ s ≠ "".
Proof. destruct s; simpl; split; congruence. Qed.

Lemma split_on_go_cons (sep s : string) (skip : nat) :
  ∃ h t, PyStr.split_on_go sep s skip = h :: t.
Proof.
  revert skip. induction s as [|c s IH]; intros skip; simpl; [by eauto|].
  destruct skip as [|k]; [|by apply IH].
  destruct (PyStr.is_prefix sep (String c s)); [by eauto|].
  destruct (IH 0) as (h & t & ->). by eauto.
Qed.

(** [s.split(sep)] is never the empty list. *)
Lemma split_on_nonempty (sep s : string) : PyStr.split_on sep s ≠ [].
Proof. destruct (split_on_go_cons sep s 0) as (h & t & H). unfold PyStr.split_on. by rewrite H. Qed.

Lemma is_prefix_drop (p s : string) :
  PyStr.is_prefix p s = true → s = p +:+ string_drop (String.length p) s.
Proof.
  revert s. induction p as [|a p IH]; intros s H; simpl in *; [by destruct s|].
  destruct s as [|b s]; [done|].
  destruct (Ascii.eqb_spec a b) as [->|]; [|done].
  change (String b s = String b (p +:+ string_drop (String.length p) s)).
  f_equal. by apply IH.
Qed.

Lemma is_prefix_length (p s : string) :
  PyStr.is_prefix p s = true → String.length p <= String.length s.
Proof.
  revert s. induction p as [|a p IH]; intros s H; simpl in *; [lia|].
  destruct s as [|b s]; [done|].
  destruct (Ascii.eqb a b); [|done]. simpl. apply IH in H. lia.
Qed.

Lemma join_cons (sep h : string) (t : list string) :
  t ≠ [] → PyStr.join sep (h :: t) = h +:+ sep +:+ PyStr.join sep t.
Proof. destruct t; [done|]. by intros _. Qed.

Lemma split_on_go_join (sep s : string) (skip : nat) :
  sep ≠ "" → skip <= String.length s →
  PyStr.join sep (PyStr.split_on_go sep s skip) = string_drop skip s.
Proof.
  intros Hsep. revert skip. induction s as [|c s IH]; intros skip Hskip.
  - simpl in *. by replace skip with 0 by lia.
  - destruct skip as [|k]; simpl.
    + destruct (PyStr.is_prefix sep (String c s)) eqn:Hpre.
      * pose proof (is_prefix_length _ _ Hpre) as Hlen.
        pose proof (is_prefix_drop _ _ Hpre) as Hdrop.
        destruct sep as [|a sep']; [done|]. simpl in *.
        rewrite Nat.sub_0_r.
        destruct (split_on_go_cons (String a sep') s (String.length sep')) as (h & t & Hgo).
        pose proof (IH (String.length sep') ltac:(lia)) as IH'.
        rewrite Hgo in IH' |- *. rewrite IH'. symmetry. exact Hdrop.
      * destruct (split_on_go_cons sep s 0) as (h & t & Hgo).
        specialize (IH 0 ltac:(lia)). rewrite Hgo in IH |- *.
        change (string_drop 0 s) with s in IH. rewrite <- IH at 1.
        by destruct t.
    + apply IH. simpl in Hskip. lia.
Qed.

(** Joining the pieces with the separator gives the text back. *)
Lemma split_on_join (sep s : string) :
  sep ≠ "" → PyStr.join sep (PyStr.split_on sep s) = s.
Proof. intros H. unfold PyStr.split_on. by rewrite split_on_go_join by (done || lia). Qed.

End Split.

(** ** The mock chunker *)

Section Chunker.

Lemma enumerate_from_elem {A} (k i : nat) (x : A) (l : list A) :
  (i, x) ∈ enumerate_from k l ↔ k <= i ∧ l !! (i - k) = Some x.
Proof.
  revert k. induction l as [|y l IH]; intros k; simpl.
  - split; [by intros ?%elem_of_nil | by intros [_ ?]].
  - rewrite elem_of_cons, IH. split.
    + intros [[= -> ->]|[Hk Hl]].
      * split; [lia|]. by rewrite Nat.sub_diag.
      * split; [lia|]. by replace (i - k) with (S (i - S k)) by lia.
    + intros [Hk Hl]. destruct (decide (i = k)) as [->|Hne].
      * left. rewrite Nat.sub_diag in Hl. simpl in Hl. congruence.
      * right. split; [lia|].
        by replace (i - k) with (S (i - S k)) in Hl by lia.
Qed.

Lemma enumerate_from_sorted {A} (k : nat) (l : list A) :
  StronglySorted (fun a b : nat * A => a.1 < b.1) (enumerate_from k l).
Proof.
  revert k. induction l as [|y l IH]; intros k; simpl; constructor; [by apply IH|].
  apply Forall_forall. intros [i x] Hin%enumerate_from_elem. simpl. lia.
Qed.

Lemma enumerate_from_snd {A} (k : nat) (l : list A) :
  snd <$> enumerate_from k l = l.
Proof. revert k. induction l as [|y l IH]; intros k; simpl; by rewrite ?IH. Qed.

Lemma StronglySorted_filter {A} (R : relation A) (P : A → Prop)
    `{!∀ x, Decision (P x)} (l : list A) :
  StronglySorted R l → StronglySorted R (filter P l).
Proof.
  induction 1 as [|x l Hl IH Hx]; [constructor|].
  rewrite filter_cons. case_decide; [|done].
  constructor; [done|]. apply Forall_forall. intros y [_ Hy]%list_elem_of_filter.
  by eapply Forall_forall in Hx.
Qed.

(** The chunking loop appends, in order, the chunk of every paragraph
    that is not blank. *)
Lemma chunk_loop (source_name : string) (ips : list (nat * string))
    (acc : list Document) :
  foldl (chunk_step source_name) acc ips = acc ++ paragraph_chunks source_name ips.
Proof.
  unfold paragraph_chunks.
  revert acc. induction ips as [|[i p] ips IH]; intros acc; simpl.
  - by rewrite app_nil_r.
  - rewrite IH, filter_cons. unfold chunk_step.
    case_decide as Hp; simpl in Hp.
    + apply truthy_ne in Hp as ->. by rewrite fmap_cons, <- app_assoc.
    + by rewrite Hp.
Qed.

Lemma paragraph_chunks_contents (source_name : string) (ips : list (nat * string)) :
  page_content <$> paragraph_chunks source_name ips
  = filter (fun s => s ≠ "") (PyStr.strip <$> (snd <$> ips)).
Proof.
  unfold paragraph_chunks. induction ips as [|[i p] ips IH]; [done|].
  rewrite !fmap_cons, !filter_cons. cbn beta iota delta [snd].
  destruct (decide (PyStr.strip p ≠ "")); [rewrite !fmap_cons|]; by rewrite IH.
Qed.

Lemma paragraph_chunks_sorted (source_name : string) (k : nat) (ps : list string) :
  StronglySorted Z.lt (positions (paragraph_chunks source_name (enumerate_from k ps))).
Proof.
  unfold positions, paragraph_chunks. rewrite <- list_fmap_compose.
  eapply StronglySorted_fmap;
    [|apply StronglySorted_filter, (enumerate_from_sorted k ps)].
  intros [i p] [j q]; simpl. lia.
Qed.

End Chunker.

(** ** The claims about the mock pipeline *)

(** C1, as stated, fails: after uploading the two-paragraph example, the
    query "Are dogs loyal?" does not yield the single source
    "Dogs are loyal." with the answer "Dogs are loyal [1].", because the
    word "are" of the query also occurs in the first paragraph. *)
Lemma mock_example_not_single_source :
  let r := mock_get_answer example_query mock_handle 0 0 (uploaded example_text) in
  ¬ (page_content <$> sources r = ["Dogs are loyal."]
     ∧ answer r = "Dogs are loyal [1].").
Proof. vm_compute. intros [H _]. discriminate H. Qed.

(** C1 (amended): after uploading "Cats are mammals.\n\nDogs are loyal."
    in mock mode, the query "Are dogs loyal?" yields the two chunks
    "Cats are mammals." and "Dogs are loyal.", in that order, and the
    answer "Cats are mammals [1]. Dogs are loyal [2].". *)
Theorem mock_example_end_to_end {R : Type} (source_name : string) (retriever : R)
    (start_time end_time : Q) (st : MockState) :
  let st' := (mock_get_text_chunks example_text source_name st).2 in
  let r := mock_get_answer example_query retriever start_time end_time st' in
  page_content <$> sources r = ["Cats are mammals."; "Dogs are loyal."]
  ∧ answer r = "Cats are mammals [1]. Dogs are loyal [2].".
Proof. split; vm_compute; reflexivity. Qed.

(** C2, as stated, fails: before any upload the token field
    [query_tokens] of the query "hi" is 1, not 0. *)
Lemma mock_never_indexed_query_tokens :
  ¬ (query_tokens (token_usage (mock_get_answer "hi" mock_handle 0 0 mock_initial)) = 0%Z).
Proof. vm_compute. discriminate. Qed.

(** C2 (amended): in mock mode, for every query, answering while the
    document store is empty returns the refusal sentence that contains
    "no documents have been processed yet" (distinct from the no-match
    sentence), no sources, every field of [cost_breakdown] zero, and every
    field of [token_usage] zero except [query_tokens], which is the number
    of whitespace-separated words of the query. *)
Theorem mock_never_indexed {R : Type} (query : string) (retriever : R)
    (start_time end_time : Q) (st : MockState) :
  mock_documents st = [] →
  let r := mock_get_answer query retriever start_time end_time st in
  answer r = no_documents_answer
  ∧ PyStr.contains "no documents have been processed yet" (answer r) = true
  ∧ answer r ≠ no_match_answer
  ∧ sources r = []
  ∧ cost_breakdown r
    = {| embedding_tokens := 0; llm_input_tokens := 0; llm_output_tokens := 0;
         embedding_cost := 0; llm_input_cost := 0; llm_output_cost := 0;
         total_cost := 0 |}
  ∧ token_usage r
    = {| context_tokens := 0; query_tokens := word_count query;
         prompt_tokens := 0; output_tokens := 0; total_llm_tokens := 0 |}.
Proof.
  intros Hempty r. subst r. unfold mock_get_answer. rewrite Hempty. cbn.
  repeat split; try reflexivity. discriminate.
Qed.

(** The never-indexed answer to "hi there" on the initial store. *)
Lemma mock_never_indexed_witness :
  mock_documents mock_initial = []
  ∧ token_usage (mock_get_answer "hi there" mock_handle 0 1 mock_initial)
    = {| context_tokens := 0; query_tokens := 2;
         prompt_tokens := 0; output_tokens := 0; total_llm_tokens := 0 |}.
Proof.
  split; [reflexivity|].
  apply (mock_never_indexed "hi there" mock_handle 0 1 mock_initial). reflexivity.
Defined.

(** C3, as stated, fails: with an empty paragraph between "A" and "B" the
    two chunks get the positions 1 and 3, so the second chunk's position
    is not its 1-based index among the surviving paragraphs. *)
Lemma mock_chunker_position_gap :
  let chunks := (mock_get_text_chunks gap_text "notes.txt" mock_initial).1 in
  positions chunks = [1; 3]%Z
  ∧ ¬ (∀ j d, chunks !! j = Some d → position (metadata d) = (Z.of_nat j + 1)%Z).
Proof.
  split; [reflexivity|].
  intros H. specialize (H 1 _ eq_refl). vm_compute in H. discriminate H.
Qed.

(** A leading blank paragraph: the only chunk has position 2. *)
Example mock_chunker_leading_blank :
  positions (mock_get_text_chunks (blank_line +:+ "A") "notes.txt" mock_initial).1
  = [2%Z].
Proof. reflexivity. Qed.

(** C3 (amended): for every text and source name the mock chunker splits
    the text at the blank-line separator, drops the paragraphs that are
    blank after trimming, keeps the others trimmed and in order, and gives
    each emitted chunk the 1-based index of its paragraph among all the
    paragraphs of the split, dropped ones included; so the positions are
    strictly increasing and at least 1. *)
Theorem mock_chunker_positions (text_content source_name : string) (st : MockState) :
  let paragraphs := PyStr.split_on blank_line text_content in
  let chunks := (mock_get_text_chunks text_content source_name st).1 in
  PyStr.join blank_line paragraphs = text_content
  ∧ page_content <$> chunks = filter (fun s => s ≠ "") (PyStr.strip <$> paragraphs)
  ∧ (∀ d, d ∈ chunks ↔
          ∃ i p, paragraphs !! i = Some p ∧ PyStr.strip p ≠ ""
                 ∧ d = {| page_content := PyStr.strip p;
                          metadata := {| source := source_name; title := source_name;
                                         position := Z.of_nat i + 1 |} |})
  ∧ StronglySorted Z.lt (positions chunks)
  ∧ Forall (fun z => (1 <= z)%Z) (positions chunks)
  ∧ mock_documents (mock_get_text_chunks text_content source_name st).2 = chunks.
Proof.
  intros paragraphs chunks.
  assert (Hchunks : chunks = paragraph_chunks source_name (enumerate paragraphs)).
  { subst chunks. unfold mock_get_text_chunks. cbn [fst]. by rewrite chunk_loop. }
  split; [by apply split_on_join|].
  split.
  { rewrite Hchunks, paragraph_chunks_contents. unfold enumerate.
    by rewrite enumerate_from_snd. }
  assert (Helem : ∀ d, d ∈ chunks ↔
            ∃ i p, paragraphs !! i = Some p ∧ PyStr.strip p ≠ ""
                   ∧ d = paragraph_chunk source_name (i, p)).
  { intros d. rewrite Hchunks. unfold paragraph_chunks.
    rewrite list_elem_of_fmap. split.
    - intros ([i p] & -> & [Hp Hin]%list_elem_of_filter).
      apply enumerate_from_elem in Hin as [_ Hin]. rewrite Nat.sub_0_r in Hin.
      by exists i, p.
    - intros (i & p & Hin & Hp & ->). exists (i, p). split; [done|].
      apply list_elem_of_filter. split; [done|].
      apply enumerate_from_elem. rewrite Nat.sub_0_r. split; [lia|done]. }
  split; [exact Helem|].
  split; [rewrite Hchunks; apply paragraph_chunks_sorted|].
  split; [|done].
  apply Forall_forall. intros z (d & -> & Hd)%list_elem_of_fmap.
  apply Helem in Hd as (i & p & _ & _ & ->). simpl. lia.
Qed.

(** C5: in mock mode with a non-empty store, the sources are the stored
    chunks that share a lower-cased whitespace-separated word with the
    query, in the order of the store, cut to the first three. *)
Theorem mock_sources_keyword_filter {R : Type} (query : string) (retriever : R)
    (start_time end_time : Q) (st : MockState) :
  mock_documents st ≠ [] →
  sources (mock_get_answer query retriever start_time end_time st)
  = take 3 (filter (shares_word query) (mock_documents st)).
Proof. intros _. apply mock_sources. Qed.

(** The sources of "loyal. friends" on the two-paragraph example. *)
Lemma mock_sources_keyword_filter_witness :
  mock_documents (uploaded example_text) ≠ []
  ∧ sources (mock_get_answer "loyal. friends" mock_handle 0 1 (uploaded example_text))
    = take 3 (filter (shares_word "loyal. friends")
                     (mock_documents (uploaded example_text))).
Proof.
  split; [by vm_compute|].
  apply (mock_sources_keyword_filter "loyal. friends" mock_handle 0 1
           (uploaded example_text)).
  by vm_compute.
Defined.

Lemma filter_none {A} (P : A → Prop) `{!∀ x, Decision (P x)} (l : list A) :
  Forall (fun x => ¬ P x) l → filter P l = [].
Proof.
  induction 1 as [|x l Hx _ IH]; [done|]. by rewrite filter_cons_False.
Qed.

(** C7: in mock mode, when the store is not empty and the word set of no
    stored chunk meets the word set of the query, the answer is the fixed
    no-match sentence and there are no sources. *)
Theorem mock_zero_relevance {R : Type} (query : string) (retriever : R)
    (start_time end_time : Q) (st : MockState) :
  mock_documents st ≠ [] →
  Forall (fun doc => word_set query ∩ word_set (page_content doc) = ∅)
         (mock_documents st) →
  let r := mock_get_answer query retriever start_time end_time st in
  answer r
  = "Based on the provided documents, I cannot find specific information to answer this question."
  ∧ sources r = [].
Proof.
  intros Hne Hnone r. subst r.
  assert (Hrel : relevant query st = []).
  { unfold relevant. rewrite filter_none; [done|].
    eapply Forall_impl; [exact Hnone|]. intros doc Hdoc Hs.
    by apply word_sets_meet in Hs. }
  rewrite mock_answer, mock_sources by done. by rewrite Hrel.
Qed.

(** "Do birds sing?" shares no word with the two-paragraph example. *)
Lemma mock_zero_relevance_witness :
  mock_documents (uploaded example_text) ≠ []
  ∧ answer (mock_get_answer "Do birds sing?" mock_handle 0 1 (uploaded example_text))
    = "Based on the provided documents, I cannot find specific information to answer this question.".
Proof.
  split; [by vm_compute|].
  apply (mock_zero_relevance "Do birds sing?" mock_handle 0 1 (uploaded example_text)).
  - by vm_compute.
  - apply (bool_decide_unpack _). by vm_compute.
Defined.

(** The first piece of [s.split('.')] is the text before the first full
    stop, so the list is never empty and the 100-character slice of
    [cite_step] is never taken. *)
Lemma split_on_go_stop (c : ascii) (s : string) :
  PyStr.split_on_go "." (String c s) 0
  = if Ascii.eqb "." c then "" :: PyStr.split_on_go "." s 0
    else match PyStr.split_on_go "." s 0 with
         | h :: t => String c h :: t
         | [] => [String c ""]
         end.
Proof.
  change (PyStr.split_on_go "." (String c s) 0)
    with (if (if Ascii.eqb "." c then true else false)
          then "" :: PyStr.split_on_go "." s 0
          else match PyStr.split_on_go "." s 0 with
               | h :: t => String c h :: t
               | [] => [String c ""]
               end).
  by destruct (Ascii.eqb "." c).
Qed.

Lemma split_on_stop_head (s : string) :
  ∃ t, PyStr.split_on "." s = before_stop s :: t.
Proof.
  unfold PyStr.split_on. induction s as [|c s [t IH]]; [by exists []|].
  rewrite split_on_go_stop.
  change (before_stop (String c s))
    with (if Ascii.eqb "." c then "" else String c (before_stop s)).
  destruct (Ascii.eqb "." c); [by eauto|].
  rewrite IH. by eauto.
Qed.

Lemma cite_step_fragment (answer_parts : list string) (id : nat * Document) :
  cite_step answer_parts id = answer_parts ++ [fragment id].
Proof.
  destruct id as [i doc]. unfold cite_step, fragment.
  destruct (split_on_stop_head (page_content doc)) as [t ->]. done.
Qed.

Lemma cite_loop (ids : list (nat * Document)) (acc : list string) :
  foldl cite_step acc ids = acc ++ (fragment <$> ids).
Proof.
  revert acc. induction ids as [|id ids IH]; intros acc; simpl.
  - by rewrite app_nil_r.
  - by rewrite IH, cite_step_fragment, <- app_assoc.
Qed.

(** X5. What the code synthesizes from the sources: the trimmed text before
    the first full stop of each (the whole chunk when it has none), each
    followed by its 1-based bracketed index, joined by ". " and closed by
    a full stop. *)
Theorem mock_answer_fragments {R : Type} (query : string) (retriever : R)
    (start_time end_time : Q) (st : MockState) :
  relevant query st ≠ [] →
  answer (mock_get_answer query retriever start_time end_time st)
  = PyStr.join ". " (fragment <$> enumerate (relevant query st)) +:+ ".".
Proof.
  intros Hrel.
  assert (Hne : mock_documents st ≠ []).
  { intros Hempty. apply Hrel. unfold relevant. by rewrite Hempty. }
  rewrite mock_answer by done.
  destruct (relevant query st) as [|d ds] eqn:E; [done|].
  by rewrite cite_loop.
Qed.

(** C9 at the failing input: one stored chunk of 101 letters without a
    full stop, queried by the same word. The answer carries all 101
    letters, not the first 100. *)
Theorem mock_fragment_not_truncated :
  let r := mock_get_answer long_word mock_handle 0 1 (uploaded long_word) in
  PyStr.contains "." long_word = false
  ∧ page_content <$> sources r = [long_word]
  ∧ answer r = long_word +:+ " [1]."
  ∧ answer r ≠ PyStr.slice_to 100 long_word +:+ " [1].".
Proof.
  vm_compute. repeat split; try reflexivity. discriminate.
Qed.

(** C10: for a fixed store and query the mock answer does not depend on
    the retriever handle, whatever its type: with the same clock readings
    the whole result is the same, and with any clock readings every field
    but [timing] is. *)
Theorem mock_answer_ignores_retriever {R1 R2 : Type} (query : string)
    (retriever1 : R1) (retriever2 : R2) (st : MockState)
    (start_time end_time start_time' end_time' : Q) :
  mock_get_answer query retriever1 start_time end_time st
  = mock_get_answer query retriever2 start_time end_time st
  ∧ let r1 := mock_get_answer query retriever1 start_time end_time st in
    let r2 := mock_get_answer query retriever2 start_time' end_time' st in
    answer r1 = answer r2 ∧ sources r1 = sources r2
    ∧ cost_breakdown r1 = cost_breakdown r2 ∧ token_usage r1 = token_usage r2.
Proof.
  split; [reflexivity|].
  unfold mock_get_answer. by destruct (mock_documents st).
Qed.

(** ** Token and cost accounting *)

Section Accounting.

Local Open Scope Q_scope.

Lemma round_half_even_close (y : Q) :
  Qabs (inject_Z (round_half_even y) - y) <= 1 # 2.
Proof.
  apply Qabs_Qle_condition. unfold round_half_even.
  pose proof (Qfloor_le y) as Hlo. pose proof (Qlt_floor y) as Hhi.
  rewrite inject_Z_plus in Hhi. change (inject_Z 1) with 1 in Hhi.
  destruct (y - inject_Z (Qfloor y) ?= 1 # 2) eqn:Hcmp.
  - apply Qeq_alt in Hcmp.
    destruct (Z.even (Qfloor y)); rewrite ?inject_Z_plus;
      change (inject_Z 1) with 1; split; lra.
  - apply Qlt_alt in Hcmp. split; lra.
  - apply Qgt_alt in Hcmp. rewrite inject_Z_plus.
    change (inject_Z 1) with 1. split; lra.
Qed.


(** What [get_answer] returns when it returns. *)
Lemma get_answer_ok {VS} (svc : Services VS) (query : string)
    (retriever : Retriever VS) (start_time end_time : Q) (r : AnswerResult) :
  get_answer svc query retriever start_time end_time = Ok r →
  ∃ embedding prompt output : Z,
    cost_breakdown r = estimate_costs embedding prompt output
    ∧ prompt_tokens (token_usage r) = prompt
    ∧ output_tokens (token_usage r) = output
    ∧ total_llm_tokens (token_usage r) = (prompt + output)%Z.
Proof.
  unfold get_answer. intros H.
  destruct (get_relevant_documents svc retriever query) as [docs|msg]; [|done].
  cbn in H.
  destruct (rag_chain_invoke svc retriever query) as [response|msg]; [|done].
  cbn in H. injection H as <-. cbn. eauto 10.
Qed.


End Accounting.

(** C6: for every result of either pipeline, the never-indexed branch of
    the mock included, [total_llm_tokens] is [prompt_tokens] plus
    [output_tokens]. *)
Theorem token_invariant (DEMO_MODE : bool) (r : AnswerResult) :
  Produced DEMO_MODE r →
  total_llm_tokens (token_usage r)
  = (prompt_tokens (token_usage r) + output_tokens (token_usage r))%Z.
Proof.
  intros [R query retriever t0 t1 st | VS svc query retriever t0 t1 r' Hr].
  - unfold mock_get_answer. by destruct (mock_documents st).
  - apply get_answer_ok in Hr as (e & p & o & _ & <- & <- & Htotal). exact Htotal.
Qed.

(** The token invariant on a production-mode answer. *)
Lemma token_invariant_witness :
  ∃ r, sample_real = Ok r
       ∧ total_llm_tokens (token_usage r)
         = (prompt_tokens (token_usage r) + output_tokens (token_usage r))%Z.
Proof.
  eexists. split; [vm_compute; reflexivity|].
  apply (token_invariant false).
  apply (produced_real _ (fixed_services "I cannot answer.") "Who wrote the document?"
           (CompressionRetriever [] 10 3) 0 1).
  vm_compute. reflexivity.
Defined.




(** ** The query endpoint *)

Section Endpoints.

Context {VS : Type} (DEMO_MODE : bool) (svc : Services VS).

(** An upload that fails leaves the globals as they were. *)
Lemma upload_failure_keeps_state (u : Upload) (st : ServerState VS) :
  is_success (upload DEMO_MODE svc u st).1 = false →
  (upload DEMO_MODE svc u st).2 = st.
Proof.
  destruct u as [request|file]; unfold upload, upload_text, upload_document,
    mock_get_text_chunks; repeat case_match; simpl; congruence.
Qed.

(** An upload that succeeds sets the retriever. *)
Lemma upload_success_sets_retriever (u : Upload) (st : ServerState VS) :
  is_success (upload DEMO_MODE svc u st).1 = true →
  is_Some (retriever (upload DEMO_MODE svc u st).2).
Proof.
  destruct u as [request|file]; unfold upload, upload_text, upload_document,
    mock_get_text_chunks; repeat case_match; simpl; try congruence; eauto.
Qed.

(** No upload answers with the status and message of the query
    endpoint. *)
Lemma upload_error_distinct (u : Upload) (st : ServerState VS) :
  (upload DEMO_MODE svc u st).1
  ≠ HTTPException 400 "No document has been uploaded and processed yet.".
Proof.
  destruct u as [request|file]; unfold upload, upload_text, upload_document,
    mock_get_text_chunks; repeat case_match; simpl; congruence.
Qed.

Lemma run_uploads_responses (us : list Upload) (st : ServerState VS) :
  Forall (fun resp =>
            resp ≠ HTTPException 400 "No document has been uploaded and processed yet.")
         (run_uploads DEMO_MODE svc us st).1.
Proof.
  revert st. induction us as [|u us IH]; intros st; simpl; [constructor|].
  pose proof (upload_error_distinct u st) as Hu.
  destruct (upload DEMO_MODE svc u st) as [resp st'].
  specialize (IH st'). destruct (run_uploads DEMO_MODE svc us st') as [resps st''].
  by constructor.
Qed.

Lemma run_uploads_all_failed (us : list Upload) (st : ServerState VS) :
  Forall (fun resp => is_success resp = false) (run_uploads DEMO_MODE svc us st).1 →
  (run_uploads DEMO_MODE svc us st).2 = st.
Proof.
  revert st. induction us as [|u us IH]; intros st; simpl; [done|].
  pose proof (upload_failure_keeps_state u st) as Hkeep.
  destruct (upload DEMO_MODE svc u st) as [resp st'] eqn:Hu. simpl in Hkeep.
  specialize (IH st').
  destruct (run_uploads DEMO_MODE svc us st') as [resps st''] eqn:Hrun.
  simpl in *. intros [Hresp Hrest]%Forall_cons.
  rewrite IH by done. by apply Hkeep.
Qed.

End Endpoints.

(** C8: when every upload so far has failed, so that the retriever slot
    is still unset, the query endpoint answers every query, in either
    mode, with the 400 response "No document has been uploaded and
    processed yet." instead of raising further; no upload response
    carries that status and message. *)
Theorem query_before_upload {VS : Type} (DEMO_MODE : bool) (svc : Services VS)
    (us : list Upload) (request : QueryRequest) (start_time end_time : Q) :
  Forall (fun resp => is_success resp = false)
         (run_uploads DEMO_MODE svc us server_initial).1 →
  retriever (run_uploads DEMO_MODE svc us server_initial).2 = None
  ∧ handle_query DEMO_MODE svc request start_time end_time
      (run_uploads DEMO_MODE svc us server_initial).2
    = HTTPException 400 "No document has been uploaded and processed yet."
  ∧ Forall (fun resp =>
              resp ≠ HTTPException 400 "No document has been uploaded and processed yet.")
           (run_uploads DEMO_MODE svc us server_initial).1.
Proof.
  intros Hfailed. rewrite run_uploads_all_failed by done.
  repeat split; [apply run_uploads_responses].
Qed.

(** A blank text and a file of another type are refused; the query that
    follows gets the 400 response. *)
Lemma query_before_upload_witness :
  let us := [UploadText {| text := "   "; source_name := "Direct Input" |};
             UploadDocument {| filename := "notes.md"; file_bytes := [] |}] in
  (run_uploads true (fixed_services "") us server_initial).1
  = [HTTPException 400 "Text content cannot be empty.";
     HTTPException 400 "Only .txt and .pdf files are supported."]
  ∧ handle_query true (fixed_services "") {| query := "Are dogs loyal?" |} 0 1
      (run_uploads true (fixed_services "") us server_initial).2
    = HTTPException 400 "No document has been uploaded and processed yet.".
Proof.
  intros us. split; [reflexivity|].
  apply (query_before_upload true (fixed_services "") us
           {| query := "Are dogs loyal?" |} 0 1).
  repeat constructor.
Defined.

(** ** Trimming, lower-casing and words *)

Section Text.

Lemma lower_char_idem (c : ascii) :
  PyStr.lower_char (PyStr.lower_char c) = PyStr.lower_char c.
Proof. destruct c as [[] [] [] [] [] [] [] []]; vm_compute; reflexivity. Qed.

Lemma lower_char_isspace (c : ascii) :
  PyStr.isspace (PyStr.lower_char c) = PyStr.isspace c.
Proof. destruct c as [[] [] [] [] [] [] [] []]; vm_compute; reflexivity. Qed.

Lemma lower_idem (s : string) : PyStr.lower (PyStr.lower s) = PyStr.lower s.
Proof. induction s as [|c s IH]; simpl; [done|]. by rewrite lower_char_idem, IH. Qed.

Lemma truthy_lower (s : string) : PyStr.truthy (PyStr.lower s) = PyStr.truthy s.
Proof. by destruct s. Qed.

Lemma split_go_lower (s : string) :
  PyStr.split_go (PyStr.lower s)
  = (PyStr.lower (PyStr.split_go s).1, PyStr.lower <$> (PyStr.split_go s).2).
Proof.
  induction s as [|c s IH]; [done|].
  cbn [PyStr.lower PyStr.split_go]. rewrite IH, lower_char_isspace.
  destruct (PyStr.split_go s) as [w ws]. cbn [fst snd].
  destruct (PyStr.isspace c); [|done].
  unfold PyStr.cons_word. rewrite truthy_lower. by destruct (PyStr.truthy w).
Qed.

(** Lower-casing a text lower-cases its words, one by one. *)
Lemma split_lower (s : string) :
  PyStr.split (PyStr.lower s) = PyStr.lower <$> PyStr.split s.
Proof.
  unfold PyStr.split. rewrite split_go_lower.
  destruct (PyStr.split_go s) as [w ws]. cbn [fst snd].
  unfold PyStr.cons_word. rewrite truthy_lower. by destruct (PyStr.truthy w).
Qed.

Lemma word_set_lower (s : string) : word_set (PyStr.lower s) = word_set s.
Proof. unfold word_set. by rewrite lower_idem. Qed.

Lemma word_count_lower (s : string) : word_count (PyStr.lower s) = word_count s.
Proof. unfold word_count. by rewrite split_lower, length_fmap. Qed.

Lemma rstrip_keeps_head (c : ascii) (s : string) :
  PyStr.isspace c = false → PyStr.rstrip (String c s) = String c (PyStr.rstrip s).
Proof. intros Hc. cbn [PyStr.rstrip]. rewrite Hc. by destruct (PyStr.rstrip s). Qed.

Lemma rstrip_idem (s : string) : PyStr.rstrip (PyStr.rstrip s) = PyStr.rstrip s.
Proof.
  induction s as [|c s IH]; [done|]. cbn [PyStr.rstrip].
  destruct (PyStr.rstrip s) as [|d r] eqn:E.
  - destruct (PyStr.isspace c) eqn:Hc; [done|]. cbn [PyStr.rstrip]. by rewrite Hc.
  - cbn [PyStr.rstrip]. cbn [PyStr.rstrip] in IH. by rewrite IH.
Qed.

Lemma lstrip_head (s : string) :
  PyStr.lstrip s = ""
  ∨ ∃ c t, PyStr.lstrip s = String c t ∧ PyStr.isspace c = false.
Proof.
  induction s as [|c s IH]; [by left|]. cbn [PyStr.lstrip].
  destruct (PyStr.isspace c) eqn:Hc; [done|]. right. by exists c, s.
Qed.

(** A trimmed text is left as it is by trimming. *)
Lemma strip_idem (s : string) : PyStr.strip (PyStr.strip s) = PyStr.strip s.
Proof.
  unfold PyStr.strip. destruct (lstrip_head s) as [->|(c & t & -> & Hc)]; [done|].
  rewrite rstrip_keeps_head by done. cbn [PyStr.lstrip]. rewrite Hc.
  rewrite rstrip_keeps_head by done. by rewrite rstrip_idem.
Qed.

Lemma rstrip_empty (s : string) : PyStr.rstrip s = "" ↔ all_space s = true.
Proof.
  induction s as [|c s IH]; [done|]. cbn [PyStr.rstrip all_space].
  rewrite andb_true_iff, <- IH.
  destruct (PyStr.rstrip s); destruct (PyStr.isspace c); intuition congruence.
Qed.

Lemma lstrip_empty (s : string) : PyStr.lstrip s = "" ↔ all_space s = true.
Proof.
  induction s as [|c s IH]; [done|]. cbn [PyStr.lstrip all_space].
  destruct (PyStr.isspace c); cbn [andb]; [exact IH | split; discriminate].
Qed.

(** Trimming gives the empty text exactly for the texts of white space. *)
Lemma strip_empty (s : string) : PyStr.strip s = "" ↔ all_space s = true.
Proof.
  unfold PyStr.strip. rewrite <- lstrip_empty. split; [|by intros ->].
  destruct (lstrip_head s) as [->|(c & t & -> & Hc)]; [done|].
  rewrite rstrip_keeps_head by done. done.
Qed.

Lemma all_space_app (a b : string) :
  all_space (a +:+ b) = all_space a && all_space b.
Proof.
  induction a as [|c a IH]; [done|].
  change (String c a +:+ b) with (String c (a +:+ b)).
  cbn [all_space]. by rewrite IH, andb_assoc.
Qed.

Lemma all_space_join (sep : string) (l : list string) :
  all_space sep = true → Forall (fun s => all_space s = true) l →
  all_space (PyStr.join sep l) = true.
Proof.
  intros Hsep. induction 1 as [|s l Hs Hl IH]; [done|].
  destruct l as [|s' l]; [done|].
  rewrite join_cons by done. rewrite !all_space_app, Hs, Hsep. exact IH.
Qed.

End Text.

(** ** More on the mock pipeline *)

Lemma mock_chunks_spec (text_content source_name : string) (st : MockState) :
  (mock_get_text_chunks text_content source_name st).1
  = paragraph_chunks source_name (enumerate (PyStr.split_on blank_line text_content)).
Proof. unfold mock_get_text_chunks. cbn [fst]. by rewrite chunk_loop. Qed.

Lemma nonblank_text_has_chunk (text_content source_name : string) (st : MockState) :
  PyStr.strip text_content ≠ "" →
  (mock_get_text_chunks text_content source_name st).1 ≠ [].
Proof.
  intros Htext Hnone. apply Htext, strip_empty.
  rewrite <- (split_on_join blank_line text_content) by done.
  apply all_space_join; [done|].
  apply (f_equal (fmap page_content)) in Hnone.
  rewrite mock_chunks_spec, paragraph_chunks_contents in Hnone.
  unfold enumerate in Hnone. rewrite enumerate_from_snd in Hnone.
  apply Forall_forall. intros p Hp. apply strip_empty.
  destruct (decide (PyStr.strip p = "")) as [|Hne]; [done|].
  exfalso.
  eapply (filter_nil_not_elem_of (fun s : string => s ≠ "")); [exact Hnone|exact Hne|].
  by apply list_elem_of_fmap_2.
Qed.

(** X1: a text that is not blank gives at least one chunk, and the store
    holds it afterwards. *)
Theorem mock_chunks_nonempty (text_content source_name : string) (st : MockState) :
  PyStr.strip text_content ≠ "" →
  (mock_get_text_chunks text_content source_name st).1 ≠ []
  ∧ mock_documents (mock_get_text_chunks text_content source_name st).2 ≠ [].
Proof.
  intros Htext.
  split; by apply (nonblank_text_has_chunk text_content source_name st).
Qed.

(** A text of one word has a chunk. *)
Lemma mock_chunks_nonempty_witness :
  PyStr.strip " hello " ≠ ""
  ∧ (mock_get_text_chunks " hello " "Direct Input" mock_initial).1 ≠ [].
Proof.
  split; [by vm_compute|].
  apply (mock_chunks_nonempty " hello " "Direct Input" mock_initial). by vm_compute.
Defined.

(** X2: every chunk of the mock chunker has a content that is not empty
    and is already trimmed, and carries the source name as its source and
    as its title. *)
Theorem mock_chunks_trimmed (text_content source_name : string) (st : MockState) :
  Forall (fun d => page_content d ≠ ""
                   ∧ PyStr.strip (page_content d) = page_content d
                   ∧ source (metadata d) = source_name
                   ∧ title (metadata d) = source_name)
         (mock_get_text_chunks text_content source_name st).1.
Proof.
  rewrite mock_chunks_spec. unfold paragraph_chunks.
  apply Forall_forall. intros d ([i p] & -> & [Hp _]%list_elem_of_filter)%list_elem_of_fmap.
  unfold paragraph_chunk. cbn [page_content metadata source title snd] in *.
  by rewrite strip_idem.
Qed.

(** X3: the sources of a mock answer are at most three, are chunks of the
    store in the order of the store, and each shares a word with the
    query. *)
Theorem mock_sources_bounded {R : Type} (query : string) (retriever : R)
    (start_time end_time : Q) (st : MockState) :
  let r := mock_get_answer query retriever start_time end_time st in
  length (sources r) <= 3
  ∧ sources r `sublist_of` mock_documents st
  ∧ Forall (shares_word query) (sources r).
Proof.
  cbv zeta. rewrite mock_sources. unfold relevant. repeat split.
  - rewrite length_take. lia.
  - etrans; [apply sublist_take | apply sublist_filter].
  - apply Forall_take, Forall_forall. by intros d [Hd _]%list_elem_of_filter.
Qed.

(** X4: the mock answer does not depend on the letter case of the query:
    the lower-cased query gets the same result. *)
Theorem mock_answer_case_insensitive {R : Type} (query : string) (retriever : R)
    (start_time end_time : Q) (st : MockState) :
  mock_get_answer (PyStr.lower query) retriever start_time end_time st
  = mock_get_answer query retriever start_time end_time st.
Proof. unfold mock_get_answer. by rewrite word_set_lower, word_count_lower. Qed.

(** ** More on tokens and costs *)

Section Rounding.

Local Open Scope Q_scope.

Lemma round_half_even_proper (x y : Q) :
  x == y → round_half_even x = round_half_even y.
Proof.
  intros Hxy. unfold round_half_even.
  rewrite (Qfloor_comp _ _ Hxy).
  by rewrite (Qcompare_comp (x - inject_Z (Qfloor y)) (y - inject_Z (Qfloor y))
               ltac:(by rewrite Hxy) (1 # 2) (1 # 2) ltac:(reflexivity)).
Qed.

(** Rounding to the nearest integer keeps the order. *)
Lemma round_half_even_mono (x y : Q) :
  x <= y → (round_half_even x <= round_half_even y)%Z.
Proof.
  intros Hxy.
  destruct (Z.le_gt_cases (round_half_even x) (round_half_even y)) as [|Hgt]; [done|].
  pose proof (round_half_even_close x) as Hx. apply Qabs_Qle_condition in Hx.
  pose proof (round_half_even_close y) as Hy. apply Qabs_Qle_condition in Hy.
  assert (Hstep : inject_Z (round_half_even y) + 1 <= inject_Z (round_half_even x)).
  { change 1 with (inject_Z 1). rewrite <- inject_Z_plus, <- Zle_Qle. lia. }
  assert (Heq : x == y) by lra.
  apply round_half_even_proper in Heq. lia.
Qed.

Lemma round6_mono (x y : Q) : x <= y → round6 x <= round6 y.
Proof.
  intros Hxy. unfold round6.
  assert (Hz : (round_half_even (x * 1000000) <= round_half_even (y * 1000000))%Z)
    by (apply round_half_even_mono; lra).
  rewrite Zle_Qle in Hz.
  set (n := inject_Z (round_half_even (x * 1000000))) in *.
  set (m := inject_Z (round_half_even (y * 1000000))) in *.
  change (n / 1000000) with (n * (1 # 1000000)).
  change (m / 1000000) with (m * (1 # 1000000)). lra.
Qed.

Lemma round6_zero : round6 0 == 0.
Proof. by vm_compute. Qed.

Lemma round6_nonneg (x : Q) : 0 <= x → 0 <= round6 x.
Proof. intros Hx. rewrite <- round6_zero. by apply round6_mono. Qed.

Lemma raw_embedding_cost_mono (a b : Z) :
  (a <= b)%Z → raw_embedding_cost a <= raw_embedding_cost b.
Proof.
  intros H. rewrite Zle_Qle in H. unfold raw_embedding_cost, gemini_embedding_cost_per_1k.
  change (inject_Z a / 1000) with (inject_Z a * (1 # 1000)).
  change (inject_Z b / 1000) with (inject_Z b * (1 # 1000)). lra.
Qed.

Lemma raw_llm_input_cost_mono (a b : Z) :
  (a <= b)%Z → raw_llm_input_cost a <= raw_llm_input_cost b.
Proof.
  intros H. rewrite Zle_Qle in H. unfold raw_llm_input_cost, groq_input_cost_per_1k.
  change (inject_Z a / 1000) with (inject_Z a * (1 # 1000)).
  change (inject_Z b / 1000) with (inject_Z b * (1 # 1000)). lra.
Qed.

Lemma raw_llm_output_cost_mono (a b : Z) :
  (a <= b)%Z → raw_llm_output_cost a <= raw_llm_output_cost b.
Proof.
  intros H. rewrite Zle_Qle in H. unfold raw_llm_output_cost, groq_output_cost_per_1k.
  change (inject_Z a / 1000) with (inject_Z a * (1 # 1000)).
  change (inject_Z b / 1000) with (inject_Z b * (1 # 1000)). lra.
Qed.

End Rounding.

Section Telemetry.

Local Open Scope Q_scope.

(** The whole result of [get_answer] when it returns. *)
Lemma get_answer_shape {VS} (svc : Services VS) (query : string)
    (retriever : Retriever VS) (start_time end_time : Q) (r : AnswerResult) :
  get_answer svc query retriever start_time end_time = Ok r →
  ∃ docs reply,
    get_relevant_documents svc retriever query = Ok docs
    ∧ rag_chain_invoke svc retriever query = Ok reply
    ∧ r = {| answer := reply;
             sources := docs;
             timing := end_time - start_time;
             cost_breakdown :=
               estimate_costs
                 (foldr Z.add 0%Z ((fun doc => count_tokens svc (page_content doc)) <$> docs))
                 (count_tokens svc (prompt_format (format_docs docs) query))
                 (count_tokens svc reply);
             token_usage :=
               {| context_tokens := count_tokens svc (format_docs docs);
                  query_tokens := count_tokens svc query;
                  prompt_tokens := count_tokens svc (prompt_format (format_docs docs) query);
                  output_tokens := count_tokens svc reply;
                  total_llm_tokens :=
                    count_tokens svc (prompt_format (format_docs docs) query)
                    + count_tokens svc reply |} |}.
Proof.
  unfold get_answer. intros H.
  destruct (get_relevant_documents svc retriever query) as [docs|msg]; [|done].
  cbn in H.
  destruct (rag_chain_invoke svc retriever query) as [reply|msg]; [|done].
  cbn in H. injection H as <-. by exists docs, reply.
Qed.

Lemma count_tokens_nonneg {VS} (svc : Services VS) (text : string) :
  (0 <= count_tokens svc text)%Z.
Proof.
  unfold count_tokens. destruct (tiktoken_len svc text); [lia|].
  apply Z.div_pos; lia.
Qed.

Lemma word_count_nonneg (s : string) : (0 <= word_count s)%Z.
Proof. unfold word_count. lia. Qed.

Lemma sum_nonneg (l : list Z) :
  Forall (fun z => (0 <= z)%Z) l → (0 <= foldr Z.add 0%Z l)%Z.
Proof. induction 1; simpl; lia. Qed.

Lemma mock_cost_nonneg (n : Z) : (0 <= n)%Z → 0 <= inject_Z n * mock_rate / 1000.
Proof.
  intros H. rewrite Zle_Qle in H. unfold mock_rate.
  change (inject_Z n * (1 # 10000) / 1000) with (inject_Z n * (1 # 10000) * (1 # 1000)).
  change (inject_Z 0) with 0 in H. lra.
Qed.

Lemma raw_costs_nonneg (e p o : Z) :
  (0 <= e)%Z → (0 <= p)%Z → (0 <= o)%Z →
  0 <= raw_embedding_cost e ∧ 0 <= raw_llm_input_cost p ∧ 0 <= raw_llm_output_cost o.
Proof.
  intros He Hp Ho. rewrite Zle_Qle in He, Hp, Ho.
  change (inject_Z 0) with 0 in He, Hp, Ho.
  unfold raw_embedding_cost, raw_llm_input_cost, raw_llm_output_cost,
    gemini_embedding_cost_per_1k, groq_input_cost_per_1k, groq_output_cost_per_1k.
  change (inject_Z e / 1000) with (inject_Z e * (1 # 1000)).
  change (inject_Z p / 1000) with (inject_Z p * (1 # 1000)).
  change (inject_Z o / 1000) with (inject_Z o * (1 # 1000)).
  repeat split; lra.
Qed.

End Telemetry.

(** X6: in every result of either pipeline the token counts of the cost
    breakdown are those of the token usage: [llm_input_tokens] is
    [prompt_tokens] and [llm_output_tokens] is [output_tokens]; in mock
    mode [embedding_tokens] is moreover [context_tokens]. *)
Theorem cost_token_fields_agree (DEMO_MODE : bool) (r : AnswerResult) :
  Produced DEMO_MODE r →
  llm_input_tokens (cost_breakdown r) = prompt_tokens (token_usage r)
  ∧ llm_output_tokens (cost_breakdown r) = output_tokens (token_usage r)
  ∧ (DEMO_MODE = true →
     embedding_tokens (cost_breakdown r) = context_tokens (token_usage r)).
Proof.
  intros [R query retriever t0 t1 st | VS svc query retriever t0 t1 r' Hr].
  - unfold mock_get_answer. by destruct (mock_documents st).
  - apply get_answer_shape in Hr as (docs & reply & _ & _ & ->). by cbn.
Qed.

(** The fields agree on the mock answer to the two-paragraph example. *)
Lemma cost_token_fields_agree_witness :
  let r := mock_get_answer example_query mock_handle 0 1 (uploaded example_text) in
  llm_input_tokens (cost_breakdown r) = prompt_tokens (token_usage r)
  ∧ llm_output_tokens (cost_breakdown r) = output_tokens (token_usage r)
  ∧ (true = true → embedding_tokens (cost_breakdown r) = context_tokens (token_usage r)).
Proof.
  apply (cost_token_fields_agree true). constructor.
Defined.

(** X7: no result of either pipeline has a negative token count or a
    negative cost. *)
Theorem result_fields_nonnegative (DEMO_MODE : bool) (r : AnswerResult) :
  Produced DEMO_MODE r →
  let tu := token_usage r in
  let cb := cost_breakdown r in
  (0 <= context_tokens tu ∧ 0 <= query_tokens tu ∧ 0 <= prompt_tokens tu
   ∧ 0 <= output_tokens tu ∧ 0 <= total_llm_tokens tu
   ∧ 0 <= embedding_tokens cb ∧ 0 <= llm_input_tokens cb
   ∧ 0 <= llm_output_tokens cb)%Z
  ∧ (0 <= embedding_cost cb ∧ 0 <= llm_input_cost cb
     ∧ 0 <= llm_output_cost cb ∧ 0 <= total_cost cb)%Q.
Proof.
  intros [R query retriever t0 t1 st | VS svc query retriever t0 t1 r' Hr]; cbv zeta.
  - unfold mock_get_answer. pose proof (word_count_nonneg query) as Hq.
    destruct (mock_documents st) as [|d ds].
    + cbn [token_usage cost_breakdown context_tokens query_tokens prompt_tokens
           output_tokens total_llm_tokens embedding_tokens llm_input_tokens
           llm_output_tokens embedding_cost llm_input_cost llm_output_cost total_cost].
      repeat split; (lia || apply Qle_refl).
    + set (docs := take 3 _).
      set (ans := match docs with [] => _ | _ => _ end).
      pose proof (word_count_nonneg ans) as Ho.
      assert (Hc : (0 <= foldr Z.add 0 ((fun doc => word_count (page_content doc)) <$> docs))%Z).
      { apply sum_nonneg, Forall_fmap, Forall_forall. intros doc _. apply word_count_nonneg. }
      cbn [token_usage cost_breakdown context_tokens query_tokens prompt_tokens
           output_tokens total_llm_tokens embedding_tokens llm_input_tokens
           llm_output_tokens embedding_cost llm_input_cost llm_output_cost total_cost].
      repeat split; try lia; apply mock_cost_nonneg; lia.
  - apply get_answer_shape in Hr as (docs & reply & _ & _ & ->).
    pose proof (count_tokens_nonneg svc (format_docs docs)).
    pose proof (count_tokens_nonneg svc query).
    pose proof (count_tokens_nonneg svc (prompt_format (format_docs docs) query)) as Hp.
    pose proof (count_tokens_nonneg svc reply) as Ho.
    assert (He : (0 <= foldr Z.add 0
                         ((fun doc => count_tokens svc (page_content doc)) <$> docs))%Z).
    { apply sum_nonneg, Forall_fmap, Forall_forall. intros doc _. apply count_tokens_nonneg. }
    destruct (raw_costs_nonneg _ _ _ He Hp Ho) as (Hce & Hcp & Hco).
    unfold estimate_costs.
    cbn [token_usage cost_breakdown context_tokens query_tokens prompt_tokens
         output_tokens total_llm_tokens embedding_tokens llm_input_tokens
         llm_output_tokens embedding_cost llm_input_cost llm_output_cost total_cost].
    repeat split; try lia; apply round6_nonneg; try done.
    apply Qle_trans with (0 + 0 + 0)%Q; [done|].
    repeat apply Qplus_le_compat; done.
Qed.

(** No field of the production-mode sample is negative. *)
Lemma result_fields_nonnegative_witness :
  ∃ r, sample_real = Ok r
       ∧ (0 <= total_llm_tokens (token_usage r))%Z
       ∧ (0 <= total_cost (cost_breakdown r))%Q.
Proof.
  eexists. split; [vm_compute; reflexivity|].
  pose proof (result_fields_nonnegative false _
    (produced_real _ (fixed_services "I cannot answer.") "Who wrote the document?"
       (CompressionRetriever [] 10 3) 0 1 _ ltac:(vm_compute; reflexivity))) as H.
  cbv zeta in H. split; [apply H | apply H].
Defined.


(** X9: [estimate_costs] is monotone: with no fewer tokens of each kind,
    no cost field is smaller. *)
Theorem estimate_costs_mono (e p o e' p' o' : Z) :
  (e <= e')%Z → (p <= p')%Z → (o <= o')%Z →
  let cb := estimate_costs e p o in
  let cb' := estimate_costs e' p' o' in
  (embedding_cost cb <= embedding_cost cb'
   ∧ llm_input_cost cb <= llm_input_cost cb'
   ∧ llm_output_cost cb <= llm_output_cost cb'
   ∧ total_cost cb <= total_cost cb')%Q.
Proof.
  intros He Hp Ho. cbv zeta. unfold estimate_costs.
  cbn [embedding_cost llm_input_cost llm_output_cost total_cost].
  pose proof (raw_embedding_cost_mono _ _ He).
  pose proof (raw_llm_input_cost_mono _ _ Hp).
  pose proof (raw_llm_output_cost_mono _ _ Ho).
  repeat split; apply round6_mono; try done.
  repeat apply Qplus_le_compat; done.
Qed.

(** Forty more prompt tokens do not lower any cost. *)
Lemma estimate_costs_mono_witness :
  (total_cost (estimate_costs 120 224 4) <= total_cost (estimate_costs 120 264 4))%Q.
Proof.
  apply (estimate_costs_mono 120 224 4 120 264 4); lia.
Defined.

(** ** More on the real pipeline *)

Section Production.

Lemma enumerate_from_lookup {A} (k i : nat) (l : list A) :
  enumerate_from k l !! i = (fun x => (k + i, x)) <$> l !! i.
Proof.
  revert k i. induction l as [|x l IH]; intros k i; [done|].
  destruct i as [|i]; simpl; [by rewrite Nat.add_0_r|].
  rewrite IH. by replace (S k + i) with (k + S i) by lia.
Qed.

(** The loop of [get_text_chunks] maps every numbered chunk to a
    document. *)
Lemma text_chunks_loop (source_name : string) (ics : list (nat * string))
    (acc : list Document) :
  foldl (fun documents '(i, chunk) =>
           documents ++ [ {| page_content := chunk;
                             metadata := {| source := source_name;
                                            title := source_name;
                                            position := Z.of_nat i + 1 |} |} ])
        acc ics
  = acc ++ ((fun ic : nat * string =>
               {| page_content := ic.2;
                  metadata := {| source := source_name; title := source_name;
                                 position := Z.of_nat ic.1 + 1 |} |}) <$> ics).
Proof.
  revert acc. induction ics as [|[i c] ics IH]; intros acc; simpl.
  - by rewrite app_nil_r.
  - by rewrite IH, <- app_assoc.
Qed.

Lemma string_app_assoc (a b c : string) : (a +:+ b) +:+ c = a +:+ (b +:+ c).
Proof.
  induction a as [|x a IH]; [done|].
  change (String x ((a +:+ b) +:+ c) = String x (a +:+ b +:+ c)). by rewrite IH.
Qed.

Lemma is_prefix_app (p s : string) : PyStr.is_prefix p (p +:+ s) = true.
Proof.
  induction p as [|c p IH]; [done|].
  change (String c p +:+ s) with (String c (p +:+ s)).
  cbn [PyStr.is_prefix]. by rewrite Ascii.eqb_refl.
Qed.

Lemma contains_cons (sub : string) (c : ascii) (s : string) :
  PyStr.contains sub (String c s)
  = PyStr.is_prefix sub (String c s) || PyStr.contains sub s.
Proof. done. Qed.

(** [sub in s] holds exactly when [s] is [sub] between two texts. *)
Lemma contains_spec (sub s : string) :
  PyStr.contains sub s = true ↔ ∃ pre post, s = pre +:+ sub +:+ post.
Proof.
  split.
  - induction s as [|c s IH].
    + cbn. rewrite orb_false_r. intros H%is_prefix_drop. by exists "", (string_drop (String.length sub) "").
    + rewrite contains_cons. intros [H%is_prefix_drop|H]%orb_true_iff.
      * by exists "", (string_drop (String.length sub) (String c s)).
      * destruct (IH H) as (pre & post & ->). by exists (String c pre), post.
  - intros (pre & post & ->). induction pre as [|c pre IH].
    + change ("" +:+ sub +:+ post) with (sub +:+ post).
      destruct (sub +:+ post) eqn:E.
      * cbn. rewrite orb_false_r. rewrite <- E. apply is_prefix_app.
      * rewrite contains_cons, <- E, is_prefix_app. done.
    + change (String c pre +:+ sub +:+ post) with (String c (pre +:+ sub +:+ post)).
      rewrite contains_cons, IH. apply orb_true_r.
Qed.

Lemma contains_trans (a b c : string) :
  PyStr.contains a b = true → PyStr.contains b c = true → PyStr.contains a c = true.
Proof.
  intros (p1 & q1 & ->)%contains_spec (p2 & q2 & ->)%contains_spec.
  apply contains_spec. exists (p2 +:+ p1), (q1 +:+ q2).
  by rewrite !string_app_assoc.
Qed.

Lemma contains_join (sep x : string) (l : list string) :
  x ∈ l → PyStr.contains x (PyStr.join sep l) = true.
Proof.
  induction l as [|y l IH]; [by intros ?%elem_of_nil|].
  intros Hin. destruct l as [|z l].
  - apply list_elem_of_singleton in Hin as ->. apply contains_spec. exists "", "".
    change ("" +:+ y +:+ "") with (y +:+ ""). clear. induction y as [|c y IH]; [done|].
    change (String c y +:+ "") with (String c (y +:+ "")). by rewrite <- IH.
  - rewrite join_cons by done. apply elem_of_cons in Hin as [->|Hin].
    + apply contains_spec. by exists "", (sep +:+ PyStr.join sep (z :: l)).
    + apply contains_spec. specialize (IH Hin).
      apply contains_spec in IH as (pre & post & ->).
      exists (y +:+ sep +:+ pre), post. by rewrite !string_app_assoc.
Qed.

End Production.

(** X10: the real chunker numbers the chunks of the splitter 1, 2, 3, ...
    in their order: the document at index [i] holds the chunk at index
    [i], the source name as source and title, and position [i + 1]; there
    are as many documents as chunks. *)
Theorem text_chunks_positions {VS : Type} (svc : Services VS)
    (text_content source_name : string) :
  let chunks := split_text svc text_content in
  let documents := get_text_chunks svc text_content source_name in
  length documents = length chunks
  ∧ (∀ i, documents !! i
          = (fun chunk => {| page_content := chunk;
                             metadata := {| source := source_name; title := source_name;
                                            position := Z.of_nat i + 1 |} |})
              <$> chunks !! i)
  ∧ positions documents = (fun i => Z.of_nat i + 1)%Z <$> seq 0 (length chunks).
Proof.
  cbv zeta. unfold get_text_chunks. rewrite text_chunks_loop, app_nil_l.
  set (chunks := split_text svc text_content).
  assert (Hlookup : ∀ i,
    ((fun ic : nat * string =>
        {| page_content := ic.2;
           metadata := {| source := source_name; title := source_name;
                          position := Z.of_nat ic.1 + 1 |} |}) <$> enumerate chunks) !! i
    = (fun chunk => {| page_content := chunk;
                       metadata := {| source := source_name; title := source_name;
                                      position := Z.of_nat i + 1 |} |})
        <$> chunks !! i).
  { intros i. unfold enumerate. rewrite list_lookup_fmap, enumerate_from_lookup.
    by destruct (chunks !! i). }
  assert (Hlen : length ((fun ic : nat * string =>
        {| page_content := ic.2;
           metadata := {| source := source_name; title := source_name;
                          position := Z.of_nat ic.1 + 1 |} |}) <$> enumerate chunks)
      = length chunks).
  { rewrite length_fmap. rewrite <- (enumerate_from_snd 0 chunks) at 2.
    by rewrite length_fmap. }
  split; [exact Hlen|]. split; [exact Hlookup|].
  apply list_eq. intros i. unfold positions.
  rewrite (list_lookup_fmap (fun d : Document => position (metadata d))), Hlookup.
  rewrite (list_lookup_fmap (fun i : nat => (Z.of_nat i + 1)%Z)).
  destruct (chunks !! i) as [c|] eqn:E; simpl.
  - apply lookup_lt_Some in E as Hi. by rewrite lookup_seq_lt.
  - apply lookup_ge_None in E. by rewrite lookup_seq_ge.
Qed.

(** X11: in production mode a failure of the retrieval, or of the model
    after a retrieval that worked, is reported by the query endpoint as a
    500 response whose detail is the message of that failure. *)
Theorem query_upstream_failure {VS : Type} (svc : Services VS)
    (request : QueryRequest) (start_time end_time : Q) (st : ServerState VS)
    (base : VS) (k top_n : nat) (msg : string) :
  retriever st = Some (CompressionRetriever base k top_n) →
  relevant_documents svc base k top_n (query request) = Raise msg
  ∨ (∃ docs, relevant_documents svc base k top_n (query request) = Ok docs
             ∧ llm_invoke svc (prompt_format (format_docs docs) (query request))
               = Raise msg) →
  handle_query false svc request start_time end_time st = HTTPException 500 msg.
Proof.
  intros Hrt Hfail. unfold handle_query. rewrite Hrt.
  unfold get_answer, rag_chain_invoke. cbn [get_relevant_documents].
  destruct Hfail as [Hr | (docs & Hr & Hllm)]; rewrite Hr; cbn; [done|].
  by rewrite Hllm.
Qed.

(** The model is down: the query is answered with its message. *)
Lemma query_upstream_failure_witness :
  handle_query false outage_services {| query := "Who wrote the document?" |} 0 1
    {| retriever := Some (CompressionRetriever [] 10 3);
       vectorstore := Some (PineconeVS []); mock := mock_initial |}
  = HTTPException 500 "rate limit exceeded".
Proof.
  apply (query_upstream_failure outage_services _ 0 1 _ [] 10 3 "rate limit exceeded").
  - reflexivity.
  - right. exists []. split; reflexivity.
Defined.

(** X12: in production mode, when the retrieval and the model both work,
    the query endpoint returns a result whose answer is the reply of the
    model as it is, whose sources are the retrieved documents in their
    order, and whose prompt tokens are counted on the prompt that was
    sent. *)
Theorem query_production_success {VS : Type} (svc : Services VS)
    (request : QueryRequest) (start_time end_time : Q) (st : ServerState VS)
    (base : VS) (k top_n : nat) (docs : list Document) (reply : string) :
  retriever st = Some (CompressionRetriever base k top_n) →
  relevant_documents svc base k top_n (query request) = Ok docs →
  llm_invoke svc (prompt_format (format_docs docs) (query request)) = Ok reply →
  ∃ r, handle_query false svc request start_time end_time st = Return r
       ∧ answer r = reply
       ∧ sources r = docs
       ∧ timing r = (end_time - start_time)%Q
       ∧ prompt_tokens (token_usage r)
         = count_tokens svc (prompt_format (format_docs docs) (query request))
       ∧ output_tokens (token_usage r) = count_tokens svc reply.
Proof.
  intros Hrt Hdocs Hllm. unfold handle_query. rewrite Hrt.
  unfold get_answer, rag_chain_invoke. cbn [get_relevant_documents].
  rewrite Hdocs. cbn. rewrite Hllm. cbn. eauto 10.
Qed.

(** A query against an index of one chunk. *)
Lemma query_production_success_witness :
  ∃ r, handle_query false (fixed_services "Paris [1].")
         {| query := "Which city?" |} 0 1
         {| retriever := Some (CompressionRetriever
                                 [ {| page_content := "Paris is the capital.";
                                      metadata := {| source := "geo.txt"; title := "geo.txt";
                                                     position := 1 |} |} ] 10 3);
            vectorstore := None; mock := mock_initial |}
       = Return r
       ∧ answer r = "Paris [1]."
       ∧ page_content <$> sources r = ["Paris is the capital."].
Proof.
  destruct (query_production_success (fixed_services "Paris [1].")
              {| query := "Which city?" |} 0 1
              {| retriever := Some (CompressionRetriever
                                 [ {| page_content := "Paris is the capital.";
                                      metadata := {| source := "geo.txt"; title := "geo.txt";
                                                     position := 1 |} |} ] 10 3);
                 vectorstore := None; mock := mock_initial |}
              _ 10 3 _ "Paris [1]." eq_refl eq_refl eq_refl)
    as (r & Hr & Ha & Hs & _).
  exists r. rewrite Hs. by repeat split.
Defined.

(** X13: the prompt that production mode builds contains the question
    after "Question: " and, for each document, its text after the tag
    [[DOCUMENT n]] with [n] its 1-based rank. *)
Theorem prompt_mentions_sources (docs : list Document) (question : string) :
  PyStr.contains ("Question: " +:+ question)
                 (prompt_format (format_docs docs) question) = true
  ∧ ∀ i doc, docs !! i = Some doc →
      PyStr.contains ("[DOCUMENT " +:+ PyStr.str_of_nat (i + 1) +:+ "] " +:+ page_content doc)
                     (prompt_format (format_docs docs) question) = true.
Proof.
  split.
  - apply contains_spec. unfold prompt_format.
    exists (prompt_before_context +:+ format_docs docs
            +:+ PyStr.newline +:+ PyStr.newline +:+ "    "), prompt_after_question.
    rewrite !string_app_assoc. done.
  - intros i doc Hdoc.
    eapply contains_trans with (format_docs docs).
    + unfold format_docs. apply contains_join.
      apply list_elem_of_fmap. exists (i, doc). split; [done|].
      apply enumerate_from_elem. rewrite Nat.sub_0_r. split; [lia|done].
    + apply contains_spec. unfold prompt_format.
      by exists prompt_before_context,
                (prompt_before_question +:+ question +:+ prompt_after_question).
Qed.

(** ** More on the endpoints *)

Section Runs.

Context {VS : Type} (DEMO_MODE : bool) (svc : Services VS).

Lemma upload_keeps_retriever_set (u : Upload) (st : ServerState VS) :
  is_Some (retriever st) → is_Some (retriever (upload DEMO_MODE svc u st).2).
Proof.
  intros Hset. destruct (is_success (upload DEMO_MODE svc u st).1) eqn:E.
  - by apply upload_success_sets_retriever.
  - by rewrite upload_failure_keeps_state.
Qed.

Lemma run_uploads_keeps_retriever_set (us : list Upload) (st : ServerState VS) :
  is_Some (retriever st) → is_Some (retriever (run_uploads DEMO_MODE svc us st).2).
Proof.
  revert st. induction us as [|u us IH]; intros st Hset; simpl; [done|].
  pose proof (upload_keeps_retriever_set u st Hset) as Hu.
  destruct (upload DEMO_MODE svc u st) as [resp st']. simpl in Hu.
  specialize (IH st' Hu). by destruct (run_uploads DEMO_MODE svc us st').
Qed.

Lemma run_uploads_success_sets_retriever (us : list Upload) (st : ServerState VS) :
  Exists (fun resp => is_success resp = true) (run_uploads DEMO_MODE svc us st).1 →
  is_Some (retriever (run_uploads DEMO_MODE svc us st).2).
Proof.
  revert st. induction us as [|u us IH]; intros st; simpl; [by intros ?%Exists_nil|].
  pose proof (upload_success_sets_retriever DEMO_MODE svc u st) as Hu.
  destruct (upload DEMO_MODE svc u st) as [resp st'] eqn:Eu. simpl in Hu.
  pose proof (run_uploads_keeps_retriever_set us st') as Hkeep.
  specialize (IH st').
  destruct (run_uploads DEMO_MODE svc us st') as [resps st'']. simpl in *.
  intros [Hnow|Hlater]%Exists_cons; auto.
Qed.

Lemma handle_query_with_retriever (request : QueryRequest) (t0 t1 : Q)
    (st : ServerState VS) :
  is_Some (retriever st) →
  handle_query DEMO_MODE svc request t0 t1 st
  ≠ HTTPException 400 "No document has been uploaded and processed yet.".
Proof.
  intros [rt Hrt]. unfold handle_query. rewrite Hrt.
  destruct DEMO_MODE; [done|].
  by destruct (get_answer svc (query request) rt t0 t1).
Qed.

End Runs.

Section DemoRuns.

Context {VS : Type} (svc : Services VS).

Lemma upload_demo_invariant (u : Upload) (st : ServerState VS) :
  demo_invariant st → demo_invariant (upload true svc u st).2.
Proof.
  intros Hinv. destruct u as [request|file]; unfold upload, upload_text, upload_document.
  - destruct (PyStr.truthy (PyStr.strip (text request))) eqn:E; [|done].
    apply truthy_ne in E. right. cbn.
    by apply (nonblank_text_has_chunk (text request) (source_name request) (mock st)).
  - destruct (negb _); [done|].
    destruct (if PyStr.endswith (filename file) ".pdf" then _ else _) as [content|msg];
      [|done].
    destruct (PyStr.truthy (PyStr.strip content)) eqn:E; [|done].
    apply truthy_ne in E. right. cbn.
    by apply (nonblank_text_has_chunk content (filename file) (mock st)).
Qed.

Lemma run_uploads_demo_invariant (us : list Upload) (st : ServerState VS) :
  demo_invariant st → demo_invariant (run_uploads true svc us st).2.
Proof.
  revert st. induction us as [|u us IH]; intros st Hinv; simpl; [done|].
  pose proof (upload_demo_invariant u st Hinv) as Hu.
  destruct (upload true svc u st) as [resp st']. simpl in Hu.
  specialize (IH st' Hu). by destruct (run_uploads true svc us st').
Qed.

End DemoRuns.



(** X15: after any run of uploads from the initial state, the query
    endpoint answers with the 400 response "No document has been uploaded
    and processed yet." exactly when no upload of the run succeeded. *)
Theorem query_state_error_iff {VS : Type} (DEMO_MODE : bool) (svc : Services VS)
    (us : list Upload) (request : QueryRequest) (start_time end_time : Q) :
  handle_query DEMO_MODE svc request start_time end_time
    (run_uploads DEMO_MODE svc us server_initial).2
  = HTTPException 400 "No document has been uploaded and processed yet."
  ↔ Forall (fun resp => is_success resp = false)
           (run_uploads DEMO_MODE svc us server_initial).1.
Proof.
  split.
  - intros Hq. apply Forall_forall. intros resp Hresp.
    destruct (is_success resp) eqn:E; [|done]. exfalso.
    eapply handle_query_with_retriever; [|exact Hq].
    apply run_uploads_success_sets_retriever, Exists_exists. eauto.
  - intros Hfailed. by rewrite run_uploads_all_failed.
Qed.

(** X16: in demo mode, after any run of uploads from the initial state,
    the query endpoint either answers with the 400 response or returns the
    mock answer computed on a store that holds a chunk; it never returns
    a 500 response and never the sentence of the never-indexed case. *)
Theorem demo_query_never_unindexed {VS : Type} (svc : Services VS)
    (us : list Upload) (request : QueryRequest) (start_time end_time : Q) :
  let st := (run_uploads true svc us server_initial).2 in
  handle_query true svc request start_time end_time st
  = HTTPException 400 "No document has been uploaded and processed yet."
  ∨ ∃ rt, retriever st = Some rt
          ∧ mock_documents (mock st) ≠ []
          ∧ handle_query true svc request start_time end_time st
            = Return (mock_get_answer (query request) rt start_time end_time (mock st))
          ∧ answer (mock_get_answer (query request) rt start_time end_time (mock st))
            ≠ no_documents_answer.
Proof.
  cbv zeta.
  pose proof (run_uploads_demo_invariant svc us server_initial (or_introl eq_refl)) as Hinv.
  set (st := (run_uploads true svc us server_initial).2) in *.
  unfold handle_query. destruct (retriever st) as [rt|] eqn:Hrt; [|by left].
  right. exists rt. destruct Hinv as [Hnone|Hstore]; [congruence|].
  repeat split; try done.
  rewrite mock_answer by done.
  destruct (relevant (query request) (mock st)) as [|d ds] eqn:Hrel; [done|].
  intros Heq.
  assert (Hin : PyStr.contains "["
            (PyStr.join ". " (foldl cite_step [] (enumerate (d :: ds))) +:+ ".") = true).
  { rewrite cite_loop, app_nil_l.
    eapply contains_trans; [|eapply contains_trans].
    - apply contains_spec.
      by exists (PyStr.strip (before_stop (page_content d)) +:+ " "),
                (PyStr.str_of_nat 1 +:+ "]").
    - rewrite string_app_assoc. apply (contains_join ". " (fragment (0, d))). by left.
    - apply contains_spec. by exists "", ".". }
  rewrite Heq in Hin. by vm_compute in Hin.
Qed.

(** X17: the file endpoint answers with status 400 only for a file name
    that ends neither in ".txt" nor in ".pdf"; every other failure,
    a file without text included, is answered with status 500. *)
Theorem upload_document_error_status {VS : Type} (DEMO_MODE : bool)
    (svc : Services VS) (file : UploadFile) (st : ServerState VS)
    (status_code : nat) (detail : string) :
  (upload_document DEMO_MODE svc file st).1 = HTTPException status_code detail →
  (status_code = 400
   ∧ detail = "Only .txt and .pdf files are supported."
   ∧ PyStr.endswith (filename file) ".txt" = false
   ∧ PyStr.endswith (filename file) ".pdf" = false)
  ∨ (status_code = 500
     ∧ (PyStr.endswith (filename file) ".txt" = true
        ∨ PyStr.endswith (filename file) ".pdf" = true)).
Proof.
  unfold upload_document, mock_get_text_chunks.
  destruct (PyStr.endswith (filename file) ".txt") eqn:Etxt;
    destruct (PyStr.endswith (filename file) ".pdf") eqn:Epdf; cbn [orb negb];
    repeat case_match; cbn [fst]; intros [= <- <-]; auto.
Qed.

(** A Markdown file is refused with status 400. *)
Lemma upload_document_error_status_witness :
  (400 = 400
   ∧ "Only .txt and .pdf files are supported." = "Only .txt and .pdf files are supported."
   ∧ PyStr.endswith "notes.md" ".txt" = false
   ∧ PyStr.endswith "notes.md" ".pdf" = false)
  ∨ (400 = 500
     ∧ (PyStr.endswith "notes.md" ".txt" = true ∨ PyStr.endswith "notes.md" ".pdf" = true)).
Proof.
  apply (upload_document_error_status true (fixed_services "")
           {| filename := "notes.md"; file_bytes := [] |} server_initial).
  reflexivity.
Defined.

(** X18: in demo mode every text that is not blank is accepted: the
    upload succeeds, the store becomes the chunks of that text, whatever
    it held before, the vector store handle records their number, and the
    retriever is set. *)
Theorem demo_upload_text_succeeds {VS : Type} (svc : Services VS)
    (request : TextUploadRequest) (st : ServerState VS) :
  PyStr.strip (text request) ≠ "" →
  let chunks := (mock_get_text_chunks (text request) (source_name request) (mock st)).1 in
  let st' := (upload_text true svc request st).2 in
  is_success (upload_text true svc request st).1 = true
  ∧ chunks ≠ []
  ∧ mock_documents (mock st') = chunks
  ∧ mock_processed (mock st') = true
  ∧ vectorstore st' = Some (MockVS (mkMockVectorstore "created" (length chunks)))
  ∧ retriever st' = Some (MockHandle (mkMockRetriever "configured")).
Proof.
  intros Htext. cbv zeta.
  pose proof (nonblank_text_has_chunk (text request) (source_name request) (mock st) Htext).
  unfold upload_text. apply truthy_ne in Htext. rewrite Htext. by cbn.
Qed.

(** The two-paragraph example is accepted. *)
Lemma demo_upload_text_succeeds_witness :
  PyStr.strip example_text ≠ ""
  ∧ is_success (upload_text true (fixed_services "")
                  {| text := example_text; source_name := "Direct Input" |}
                  server_initial).1 = true.
Proof.
  split; [by vm_compute|].
  apply (demo_upload_text_succeeds (fixed_services "")
           {| text := example_text; source_name := "Direct Input" |} server_initial).
  by vm_compute.
Defined.

(** The fragments of the answer to the two-paragraph example. *)
Lemma mock_answer_fragments_witness :
  relevant example_query (uploaded example_text) ≠ []
  ∧ answer (mock_get_answer example_query mock_handle 0 1 (uploaded example_text))
    = PyStr.join ". " (fragment <$> enumerate (relevant example_query (uploaded example_text)))
      +:+ ".".
Proof.
  assert (H : relevant example_query (uploaded example_text) ≠ []).
  { rewrite <- (mock_sources example_query mock_handle 0 1). by vm_compute. }
  split; [exact H|].
  exact (mock_answer_fragments example_query mock_handle 0 1 (uploaded example_text) H).
Defined.

(** ** Blank queries and blank files *)

Lemma split_go_all_space (s : string) :
  all_space s = true → PyStr.split_go s = ("", []).
Proof.
  induction s as [|c s IH]; [done|]. cbn [all_space PyStr.split_go].
  intros [Hc Hs]%andb_true_iff. by rewrite (IH Hs), Hc.
Qed.

Lemma all_space_lower (s : string) : all_space (PyStr.lower s) = all_space s.
Proof.
  induction s as [|c s IH]; [done|]. cbn [PyStr.lower all_space].
  by rewrite lower_char_isspace, IH.
Qed.

Lemma split_all_space (s : string) : all_space s = true → PyStr.split s = [].
Proof. intros H. unfold PyStr.split. by rewrite split_go_all_space. Qed.

(** X19: a query of white space only, the empty query included, has no
    word: it counts zero query tokens and matches no chunk, so on a store
    that holds chunks the answer is the no-match sentence without
    sources. *)
Theorem mock_blank_query {R : Type} (query : string) (retriever : R)
    (start_time end_time : Q) (st : MockState) :
  all_space query = true →
  let r := mock_get_answer query retriever start_time end_time st in
  query_tokens (token_usage r) = 0%Z
  ∧ sources r = []
  ∧ (mock_documents st ≠ [] → answer r = no_match_answer).
Proof.
  intros Hblank. cbv zeta.
  assert (Hrel : relevant query st = []).
  { unfold relevant. rewrite filter_none; [done|].
    apply Forall_forall. intros doc _ (w & Hw & _).
    rewrite split_all_space in Hw by (by rewrite all_space_lower).
    by apply elem_of_nil in Hw. }
  split; [|split].
  - unfold mock_get_answer, word_count.
    destruct (mock_documents st); cbn [token_usage query_tokens];
      by rewrite split_all_space.
  - by rewrite mock_sources.
  - intros Hne. rewrite mock_answer by done. by rewrite Hrel.
Qed.

(** The query of two spaces on the two-paragraph example. *)
Lemma mock_blank_query_witness :
  all_space "  " = true
  ∧ sources (mock_get_answer "  " mock_handle 0 1 (uploaded example_text)) = [].
Proof.
  split; [reflexivity|].
  apply (mock_blank_query "  " mock_handle 0 1 (uploaded example_text)). reflexivity.
Defined.

Lemma pages_text_all_space (pages : list string) (acc : string) :
  all_space acc = true → Forall (fun page => all_space page = true) pages →
  all_space (foldl (fun text page => text +:+ (page +:+ PyStr.newline)) acc pages) = true.
Proof.
  intros Hacc Hpages. revert acc Hacc.
  induction Hpages as [|page pages Hpage _ IH]; intros acc Hacc; [done|].
  simpl. apply IH. by rewrite !all_space_app, Hacc, Hpage.
Qed.

(** X20: a PDF whose pages all extract to white space, a PDF without
    pages included, is answered with status 500, the detail being the
    text of the 400 exception "No text content found in the file.", and
    changes no global. *)
Theorem upload_blank_pdf {VS : Type} (DEMO_MODE : bool) (svc : Services VS)
    (file : UploadFile) (st : ServerState VS) (pages : list string) :
  PyStr.endswith (filename file) ".pdf" = true →
  pdf_pages svc (file_bytes file) = Ok pages →
  Forall (fun page => all_space page = true) pages →
  upload_document DEMO_MODE svc file st
  = (HTTPException 500 (str_http_exception svc 400 "No text content found in the file."),
     st).
Proof.
  intros Hpdf Hpages Hblank. unfold upload_document, extract_text_from_pdf.
  rewrite Hpdf, orb_true_r, Hpages. cbn [negb].
  assert (Hstrip : PyStr.strip
            (PyStr.strip (foldl (fun text page => text +:+ (page +:+ PyStr.newline))
                                "" pages)) = "").
  { rewrite strip_idem. by apply strip_empty, pages_text_all_space. }
  by rewrite Hstrip.
Qed.

(** A PDF of two blank pages. *)
Lemma upload_blank_pdf_witness :
  let svc := {| tiktoken_len := fun _ => None;
                split_text := fun text => [text];
                from_documents := fun documents => Ok documents;
                relevant_documents := fun vs k top_n _ => Ok (take top_n (take k vs));
                llm_invoke := fun _ => Ok "";
                pdf_pages := fun _ => Ok [" "; ""];
                decode_utf8 := fun _ => Raise "invalid start byte";
                str_http_exception := fun status detail =>
                  PyStr.str_of_nat status +:+ ": " +:+ detail |} in
  upload_document true svc {| filename := "scan.pdf"; file_bytes := [] |} server_initial
  = (HTTPException 500 "400: No text content found in the file.",
     server_initial (VS := list Document)).
Proof.
  intros svc.
  apply (upload_blank_pdf true svc {| filename := "scan.pdf"; file_bytes := [] |}
           server_initial [" "; ""]).
  - reflexivity.
  - reflexivity.
  - by repeat constructor.
Defined.

(** ** Chunks are single paragraphs *)

Section Paragraphs.

Lemma is_prefix_blank_line (c : ascii) (s : string) :
  PyStr.is_prefix blank_line (String c s)
  = Ascii.eqb (ascii_of_nat 10) c && starts_with_newline s.
Proof.
  change (PyStr.is_prefix blank_line (String c s))
    with (if Ascii.eqb (ascii_of_nat 10) c
          then match s with
               | EmptyString => false
               | String d _ => if Ascii.eqb (ascii_of_nat 10) d then true else false
               end
          else false).
  destruct (Ascii.eqb (ascii_of_nat 10) c); [|done].
  destruct s as [|d s]; [done|]. cbn. by destruct (Ascii.eqb _ d).
Qed.

Lemma split_on_go_blank_line (c : ascii) (s : string) :
  PyStr.split_on_go blank_line (String c s) 0
  = if PyStr.is_prefix blank_line (String c s)
    then "" :: PyStr.split_on_go blank_line s 1
    else match PyStr.split_on_go blank_line s 0 with
         | h :: t => String c h :: t
         | [] => [String c ""]
         end.
Proof. done. Qed.

(** The first piece starts as the text does. *)
Lemma split_head_newline (s h : string) (t : list string) :
  PyStr.split_on_go blank_line s 0 = h :: t →
  starts_with_newline h = true → starts_with_newline s = true.
Proof.
  destruct s as [|c s]; [by intros [= <- <-]|].
  rewrite split_on_go_blank_line.
  destruct (PyStr.is_prefix blank_line (String c s)); [by intros [= <- <-]|].
  destruct (split_on_go_cons blank_line s 0) as (h' & t' & ->). by intros [= <- <-].
Qed.

(** No piece of the split holds the separator. *)
Lemma split_pieces_free (s : string) (skip : nat) :
  Forall (fun p => PyStr.contains blank_line p = false)
         (PyStr.split_on_go blank_line s skip).
Proof.
  revert skip. induction s as [|c s IH]; intros skip.
  - by repeat constructor.
  - destruct skip as [|k]; [|apply IH].
    rewrite split_on_go_blank_line.
    destruct (PyStr.is_prefix blank_line (String c s)) eqn:Hpre.
    + constructor; [done|apply IH].
    + pose proof (IH 0) as Hrest.
      destruct (PyStr.split_on_go blank_line s 0) as [|h t] eqn:Hgo.
      { destruct (split_on_go_cons blank_line s 0) as (? & ? & ?); congruence. }
      apply Forall_cons in Hrest as [Hh Ht]. constructor; [|done].
      rewrite contains_cons, Hh, orb_false_r, is_prefix_blank_line.
      rewrite is_prefix_blank_line in Hpre.
      destruct (Ascii.eqb (ascii_of_nat 10) c); [|done]. cbn [andb] in *.
      destruct (starts_with_newline h) eqn:Hhn; [|done].
      by rewrite (split_head_newline s h t Hgo Hhn) in Hpre.
Qed.

Lemma lstrip_suffix (s : string) : ∃ pre, s = pre +:+ PyStr.lstrip s.
Proof.
  induction s as [|c s [pre IH]]; [by exists ""|]. cbn [PyStr.lstrip].
  destruct (PyStr.isspace c); [|by exists ""].
  exists (String c pre). change (String c pre +:+ PyStr.lstrip s)
    with (String c (pre +:+ PyStr.lstrip s)). by rewrite <- IH.
Qed.

Lemma rstrip_prefix (s : string) : ∃ post, s = PyStr.rstrip s +:+ post.
Proof.
  induction s as [|c s [post IH]]; [by exists ""|]. cbn [PyStr.rstrip].
  destruct (PyStr.rstrip s) as [|d r] eqn:E.
  - destruct (PyStr.isspace c); [by exists (String c s)|].
    exists post. change (String c "" +:+ post) with (String c ("" +:+ post)).
    by rewrite <- IH.
  - exists post. change (String c (String d r) +:+ post)
      with (String c (String d r +:+ post)). by rewrite <- IH.
Qed.

(** A trimmed text lies inside the text it was trimmed from. *)
Lemma strip_contained (s : string) : PyStr.contains (PyStr.strip s) s = true.
Proof.
  apply contains_spec. unfold PyStr.strip.
  destruct (lstrip_suffix s) as [pre Hpre].
  destruct (rstrip_prefix (PyStr.lstrip s)) as [post Hpost].
  exists pre, post. by rewrite <- Hpost.
Qed.

End Paragraphs.

(** X21: no chunk of the mock chunker holds a blank line, that is two
    line feeds in a row: every chunk lies within one paragraph. *)
Theorem mock_chunks_single_paragraph (text_content source_name : string)
    (st : MockState) :
  Forall (fun d => PyStr.contains blank_line (page_content d) = false)
         (mock_get_text_chunks text_content source_name st).1.
Proof.
  rewrite mock_chunks_spec. unfold paragraph_chunks.
  apply Forall_forall.
  intros d ([i p] & -> & [_ Hin]%list_elem_of_filter)%list_elem_of_fmap.
  apply enumerate_from_elem in Hin as [_ Hin].
  apply list_elem_of_lookup_2 in Hin.
  pose proof (split_pieces_free text_content 0) as Hfree.
  eapply Forall_forall in Hfree; [|exact Hin].
  unfold paragraph_chunk. cbn [page_content snd].
  destruct (PyStr.contains blank_line (PyStr.strip p)) eqn:E; [|done].
  rewrite <- Hfree. symmetry.
  eapply contains_trans; [exact E|apply strip_contained].
Qed.


